(** * Reconciliation logic of [module_utils/k8s/raw.py]

    A shallow embedding of [KubernetesRawModule]: the constructor's
    kind/apiVersion resolution, the [exact_match] predicate, the loop of
    [execute_module] and the decision procedure [perform_action].

    Python values are a tagged tree, dictionaries are association lists in
    insertion order, the cluster is an oracle answering the calls made on
    the resolved endpoint, and control flow ([exit_json], [fail_json],
    uncaught exceptions) is a result type threaded by a small monad that
    keeps the log of cluster calls. *)

From Stdlib Require Import String Ascii List ZArith Bool Lia.
Import ListNotations.
Local Open Scope string_scope.
Local Open Scope list_scope.
Set Warnings "-register-all".

(** ** Python values *)

Module Py.

(** The values a parsed manifest or an API answer is made of. *)
Inductive value : Type :=
| VNone
| VBool (b : bool)
| VInt (n : Z)
| VStr (s : string)
| VList (l : list value)
| VDict (d : list (string * value)).

(** A [dict] with string keys, in insertion order. *)
Definition dict : Type := list (string * value).

Definition keys (d : dict) : list string := map fst d.

Fixpoint lookup (k : string) (d : dict) : option value :=
  match d with
  | [] => None
  | (k', v) :: d' => if String.eqb k k' then Some v else lookup k d'
  end.

Definition mem (k : string) (d : dict) : bool :=
  match lookup k d with Some _ => true | None => false end.

(** [d.get(k, default)] *)
Definition get_default (d : dict) (k : string) (default : value) : value :=
  match lookup k d with Some v => v | None => default end.

(** [d.get(k)] *)
Definition get (d : dict) (k : string) : value := get_default d k VNone.

(** [d[k] = v]: an existing key keeps its position, a new one goes last. *)
Fixpoint setitem (d : dict) (k : string) (v : value) : dict :=
  match d with
  | [] => [(k, v)]
  | (k', v') :: d' =>
      if String.eqb k k' then (k', v) :: d' else (k', v') :: setitem d' k v
  end.

(** [d] without the key [k], what [d.pop(k)] leaves. *)
Definition remove (k : string) (d : dict) : dict :=
  filter (fun kv => negb (String.eqb k (fst kv))) d.

(** The keys of a list are pairwise different. *)
Fixpoint distinct (ks : list string) : bool :=
  match ks with
  | [] => true
  | k :: ks' => negb (existsb (String.eqb k) ks') && distinct ks'
  end.

(** Truth value of an object: [None], [False], zero and empty containers
    are false. *)
Definition truthy (v : value) : bool :=
  match v with
  | VNone => false
  | VBool b => b
  | VInt n => negb (Z.eqb n 0)
  | VStr s => negb (String.eqb s "")
  | VList l => match l with [] => false | _ => true end
  | VDict d => match d with [] => false | _ => true end
  end.

(** [a or b] *)
Definition or_ (a b : value) : value := if truthy a then a else b.

(** Structural equality of values, [==] on the tagged tree. *)
Fixpoint eqb (a b : value) {struct a} : bool :=
  match a, b with
  | VNone, VNone => true
  | VBool x, VBool y => Bool.eqb x y
  | VInt x, VInt y => Z.eqb x y
  | VStr x, VStr y => String.eqb x y
  | VList xs, VList ys =>
      (fix all2 (xs ys : list value) {struct xs} : bool :=
         match xs, ys with
         | [], [] => true
         | x :: xs', y :: ys' => eqb x y && all2 xs' ys'
         | _, _ => false
         end) xs ys
  | VDict xs, VDict ys =>
      (fix all2 (xs ys : list (string * value)) {struct xs} : bool :=
         match xs, ys with
         | [], [] => true
         | (k, x) :: xs', (k', y) :: ys' =>
             String.eqb k k' && eqb x y && all2 xs' ys'
         | _, _ => false
         end) xs ys
  | _, _ => false
  end.

(** [s.endswith(suffix)] *)
Definition endswith (s suffix : string) : bool :=
  let n := String.length s in
  let m := String.length suffix in
  Nat.leb m n && String.eqb (substring (n - m) m s) suffix.

(** ['/'.join([a, b])] *)
Definition join2 (sep a b : string) : string :=
  (a ++ sep ++ b)%string.

(** [needle in haystack] for strings. *)
Fixpoint contains (needle haystack : string) : bool :=
  String.prefix needle haystack ||
  match haystack with
  | EmptyString => false
  | String _ rest => contains needle rest
  end.

End Py.

Import Py.

(** ** Structural diff

    [dictdiffer.diff] is imported by the module and is not part of it. *)

Module Dictdiffer.

Inductive key : Type :=
| KStr (s : string)
| KIdx (i : nat).

Definition path : Type := list key.

Inductive change : Type :=
| Add (node : path) (items : list (key * value))
| Remove (node : path) (items : list (key * value))
| Change (node : path) (first second : value).

Definition when_nonempty {A} (l : list A) (c : change) : list change :=
  match l with [] => [] | _ => [c] end.

(** Entries of [second] whose key is not in [first]. *)
Definition addition (first second : dict) : list (key * value) :=
  map (fun kv => (KStr (fst kv), snd kv))
      (filter (fun kv => negb (mem (fst kv) first)) second).

(** Entries of [first] whose key is not in [second]. *)
Definition deletion (first second : dict) : list (key * value) :=
  map (fun kv => (KStr (fst kv), snd kv))
      (filter (fun kv => negb (mem (fst kv) second)) first).

Fixpoint indexed_from (i : nat) (l : list value) : list (key * value) :=
  match l with
  | [] => []
  | v :: l' => (KIdx i, v) :: indexed_from (S i) l'
  end.

(** Modelled from the spec: the deep structural diff of section 4.3
    (added, removed and changed paths, recursively across nested mappings
    and sequences; sequences are compared index by index; a type mismatch
    is a change), standing for the imported [dictdiffer.diff].  Two
    mappings give the keys only in the second as one [Add], the keys only
    in the first as one [Remove], and the diffs of the values at the keys
    they share; two sequences likewise by index; anything else is a
    [Change] unless the two values are equal. *)
Fixpoint diff_at (node : path) (first second : value) {struct first}
  : list change :=
  match first, second with
  | VDict d1, VDict d2 =>
      when_nonempty (addition d1 d2) (Add node (addition d1 d2)) ++
      when_nonempty (deletion d1 d2) (Remove node (deletion d1 d2)) ++
      (fix shared (es : list (string * value)) : list change :=
         match es with
         | [] => []
         | (k, v) :: es' =>
             match lookup k d2 with
             | Some w => diff_at (node ++ [KStr k]) v w
             | None => []
             end ++ shared es'
         end) d1
  | VList l1, VList l2 =>
      let n := Nat.min (List.length l1) (List.length l2) in
      when_nonempty (skipn n l2) (Add node (indexed_from n (skipn n l2))) ++
      when_nonempty (skipn n l1)
        (Remove node (rev (indexed_from n (skipn n l1)))) ++
      (fix shared (i : nat) (xs ys : list value) {struct xs} : list change :=
         match xs, ys with
         | x :: xs', y :: ys' =>
             diff_at (node ++ [KIdx i]) x y ++ shared (S i) xs' ys'
         | _, _ => []
         end) 0%nat l1 l2
  | _, _ => if Py.eqb first second then [] else [Change node first second]
  end.

Definition diff (first second : value) : list change := diff_at [] first second.

End Dictdiffer.

Import Dictdiffer.

(** ** The comparison of [perform_action], lines 149-154 *)

(** [shared_attrs = {}; for k in definition.keys(): shared_attrs[k] = existing_attrs.get(k)] *)
Definition shared_attrs (definition existing_attrs : dict) : dict :=
  fold_left (fun acc k => setitem acc k (get existing_attrs k))
            (keys definition) [].

(** [diffs = list(diff(definition, shared_attrs))] *)
Definition diffs (definition existing_attrs : dict) : list change :=
  diff (VDict definition) (VDict (shared_attrs definition existing_attrs)).

(** [match = len(diffs) == 0] *)
Definition matches (definition existing_attrs : dict) : bool :=
  Nat.eqb (List.length (diffs definition existing_attrs)) 0.

(** ** Cluster interface *)

(** The object an endpoint call returns.  Only its dictionary form is read,
    and as a condition such an object is true, where [None] is false. *)
Record k8s_object : Type := { to_dict : dict }.

(** Calls on a resolved endpoint, with the arguments passed. *)
Inductive call : Type :=
| CList (namespace : value)
| CGet (name namespace : value)
| CCreate (definition : dict) (namespace : value)
| CReplace (definition : dict) (name namespace : value)
| CUpdate (definition : dict) (name namespace : value)
| CDelete (name namespace : value).

Definition mutating (c : call) : bool :=
  match c with
  | CList _ | CGet _ _ => false
  | CCreate _ _ | CReplace _ _ _ | CUpdate _ _ _ | CDelete _ _ => true
  end.

(** A call answers with an object or raises [ApiException(status, body)]. *)
Inductive answer : Type :=
| Object (obj : k8s_object)
| ApiError (status : Z) (body : string).

(** An endpoint of the client's registry.  [respond] is the cluster seen
    through this endpoint: it answers a call given the calls made so far. *)
Record endpoint : Type := {
  kind : string;
  group : string;
  apiversion : string;
  respond : list call -> call -> answer
}.

(** ** Control flow *)

Inductive exn : Type :=
| TypeError (what : string)
| KeyError (key : string)
| AttributeError (what : string)
| UnboundLocalError (variable : string)
| ApiException (status : Z) (body : string)
| ResourceNotFoundError.

Record return_attributes : Type := { changed : bool; result : value }.

(** The [msg] argument of [fail_json]: a string, or the tuple of strings
    the constructor passes. *)
Inductive message : Type :=
| Text (s : string)
| Tuple (parts : list string).

(** How a piece of the module ends: it returns, it leaves through
    [exit_json] or [fail_json] (both end the process), or an exception
    escapes it. *)
Inductive outcome (A : Type) : Type :=
| Returned (a : A)
| ExitJson (r : return_attributes)
| FailJson (msg : message) (error : option Z)
| Raised (e : exn).

Arguments Returned {A} a.
Arguments ExitJson {A} r.
Arguments FailJson {A} msg error.
Arguments Raised {A} e.

(** The instance: its parameter bag, the attributes the constructor sets,
    and the log of the cluster calls made. *)
Record instance : Type := {
  params : dict;
  check_mode : bool;
  self_kind : value;
  self_api_version : value;
  self_resource_definition : value;
  self_src : value;
  resource_definitions : option (list dict);
  log : list call
}.

Definition with_params (p : dict) (s : instance) : instance :=
  {| params := p; check_mode := check_mode s; self_kind := self_kind s;
     self_api_version := self_api_version s;
     self_resource_definition := self_resource_definition s;
     self_src := self_src s; resource_definitions := resource_definitions s;
     log := log s |}.

Definition with_log (l : list call) (s : instance) : instance :=
  {| params := params s; check_mode := check_mode s; self_kind := self_kind s;
     self_api_version := self_api_version s;
     self_resource_definition := self_resource_definition s;
     self_src := self_src s; resource_definitions := resource_definitions s;
     log := l |}.

Definition M (A : Type) : Type := instance -> outcome A * instance.

Definition ret {A} (a : A) : M A := fun s => (Returned a, s).

Definition bind {A B} (m : M A) (f : A -> M B) : M B :=
  fun s =>
    match m s with
    | (Returned a, s') => f a s'
    | (ExitJson r, s') => (ExitJson r, s')
    | (FailJson msg e, s') => (FailJson msg e, s')
    | (Raised e, s') => (Raised e, s')
    end.

Declare Scope py_scope.
Delimit Scope py_scope with py.
Notation "x <- m ;; k" := (bind m (fun x => k))
  (at level 61, m at next level, right associativity) : py_scope.
Notation "m ;; k" := (bind m (fun _ => k))
  (at level 61, right associativity) : py_scope.
Local Open Scope py_scope.

Definition raise {A} (e : exn) : M A := fun s => (Raised e, s).
Definition exit_json {A} (r : return_attributes) : M A := fun s => (ExitJson r, s).
Definition fail_json {A} (msg : message) (error : option Z) : M A :=
  fun s => (FailJson msg error, s).

(** [try: m  except ApiException as exc: handler(exc.status, exc.body)] *)
Definition try_except_api {A} (m : M A) (handler : Z -> string -> M A) : M A :=
  fun s =>
    match m s with
    | (Raised (ApiException status body), s') => handler status body s'
    | r => r
    end.

(** A call on the endpoint: logged, then answered by the cluster. *)
Definition api (resource : endpoint) (c : call) : M k8s_object :=
  fun s =>
    let s' := with_log (log s ++ [c]) s in
    match respond resource (log s) c with
    | Object obj => (Returned obj, s')
    | ApiError status body => (Raised (ApiException status body), s')
    end.

(** [self.params.pop(k, default)] *)
Definition params_pop_default (k : string) (default : value) : M value :=
  fun s =>
    (Returned (get_default (params s) k default),
     with_params (remove k (params s)) s).

(** [self.params.pop(k)] *)
Definition params_pop (k : string) : M value :=
  fun s =>
    match lookup k (params s) with
    | Some v => (Returned v, with_params (remove k (params s)) s)
    | None => (Raised (KeyError k), s)
    end.

(** [self.params.get(k)] *)
Definition params_get (k : string) : M value :=
  fun s => (Returned (get (params s) k), s).

Definition get_check_mode : M bool := fun s => (Returned (check_mode s), s).

(** [d[k]] *)
Definition getitem (d : dict) (k : string) : M value :=
  match lookup k d with
  | Some v => ret v
  | None => raise (KeyError k)
  end.

(** [v.get(k)] on a value that has to be a mapping. *)
Definition value_get (v : value) (k : string) : M value :=
  match v with
  | VDict d => ret (get d k)
  | _ => raise (AttributeError "get")
  end.

(** [v.endswith(suffix)] on a value that has to be a string. *)
Definition value_endswith (v : value) (suffix : string) : M bool :=
  match v with
  | VStr s => ret (endswith s suffix)
  | _ => raise (AttributeError "endswith")
  end.

(** Reading a local variable that an earlier statement may have bound. *)
Definition read_local {A} (variable : string) (binding : option A) : M A :=
  match binding with
  | Some a => ret a
  | None => raise (UnboundLocalError variable)
  end.

(** [msg.format(body)] for a message ending in its only placeholder. *)
Definition format (prefix body : string) : message :=
  Text (prefix ++ body)%string.

(** ** The module *)

Definition new_instance (module_params : dict) (check : bool) : instance :=
  {| params := module_params; check_mode := check;
     self_kind := VNone; self_api_version := VNone;
     self_resource_definition := VNone; self_src := VNone;
     resource_definitions := None; log := [] |}.

Definition set_kind (v : value) : M unit :=
  fun s =>
    (Returned tt,
     {| params := params s; check_mode := check_mode s; self_kind := v;
        self_api_version := self_api_version s;
        self_resource_definition := self_resource_definition s;
        self_src := self_src s; resource_definitions := resource_definitions s;
        log := log s |}).

Definition set_api_version (v : value) : M unit :=
  fun s =>
    (Returned tt,
     {| params := params s; check_mode := check_mode s; self_kind := self_kind s;
        self_api_version := v;
        self_resource_definition := self_resource_definition s;
        self_src := self_src s; resource_definitions := resource_definitions s;
        log := log s |}).

Definition set_resource_definition (v : value) : M unit :=
  fun s =>
    (Returned tt,
     {| params := params s; check_mode := check_mode s; self_kind := self_kind s;
        self_api_version := self_api_version s;
        self_resource_definition := v;
        self_src := self_src s; resource_definitions := resource_definitions s;
        log := log s |}).

Definition set_src (v : value) : M unit :=
  fun s =>
    (Returned tt,
     {| params := params s; check_mode := check_mode s; self_kind := self_kind s;
        self_api_version := self_api_version s;
        self_resource_definition := self_resource_definition s;
        self_src := v; resource_definitions := resource_definitions s;
        log := log s |}).

Definition set_resource_definitions (ds : list dict) : M unit :=
  fun s =>
    (Returned tt,
     {| params := params s; check_mode := check_mode s; self_kind := self_kind s;
        self_api_version := self_api_version s;
        self_resource_definition := self_resource_definition s;
        self_src := self_src s; resource_definitions := Some ds;
        log := log s |}).

Definition get_kind : M value := fun s => (Returned (self_kind s), s).
Definition get_api_version : M value := fun s => (Returned (self_api_version s), s).

(** Reading [self.resource_definitions], an attribute the constructor may
    have left unset. *)
Definition get_resource_definitions : M (list dict) :=
  fun s =>
    match resource_definitions s with
    | Some ds => (Returned ds, s)
    | None => (Raised (AttributeError "resource_definitions"), s)
    end.

(** [self.f(a1, ..., an)] for a function [f] of the class body: the
    instance is passed as the first positional argument, so the call binds
    only when [f] declares [n + 1] parameters. *)
Definition call_method {A} (f : string) (parameters : list string)
    (arguments : nat) (body : M A) : M A :=
  if Nat.eqb (List.length parameters) (S arguments) then body
  else raise (TypeError f).

(** [for x in xs: body(x)] *)
Fixpoint for_each {A} (body : A -> M unit) (xs : list A) : M unit :=
  match xs with
  | [] => ret tt
  | x :: xs' => body x ;; for_each body xs'
  end.

Definition no_api_version : message :=
  Tuple ["Error: no api_version specified. Use the api_version parameter, or provide it as part of a ";
         "resource_definition."].

Definition no_kind : message :=
  Text "Error: no kind specified. Use the kind parameter, or provide it as part of a resource_definition".

(** [exact_match(definition)], lines 79-85: the predicate [inner]. *)
Definition exact_match (definition : dict) : endpoint -> bool :=
  fun resource =>
    forallb (fun b : bool => b)
      [ Py.eqb (VStr (kind resource)) (get definition "kind");
        Py.eqb (VStr (join2 "/" (group resource) (apiversion resource)))
               (get definition "apiVersion") ].

(** The parameter lists of the two functions [execute_module] calls through
    the instance, as declared on lines 79 and 93. *)
Definition exact_match_parameters : list string := ["definition"].

Definition perform_action_parameters : list string :=
  ["self"; "resource"; "definition"].

Definition with_result (v : value) (r : return_attributes) : return_attributes :=
  {| changed := changed r; result := v |}.

Definition with_changed (b : bool) (r : return_attributes) : return_attributes :=
  {| changed := b; result := result r |}.

Section Module.

(** The file loader of the base class, given the [src] parameter. *)
Variable load_resource_definitions : value -> list dict.

(** The alias names of the argument specification, which [remove_aliases]
    of the base class takes out of the parameter bag. *)
Variable aliases : list string.

(** The endpoints known to the client that [get_api_client] returns. *)
Variable registry : list endpoint.

(** [KubernetesRawModule.__init__], lines 49-71, after the base class has
    filled the parameter bag. *)
Definition __init__ : M unit :=
  k <- params_pop "kind" ;;
  set_kind k ;;
  v <- params_pop "api_version" ;;
  set_api_version v ;;
  rd <- params_pop "resource_definition" ;;
  set_resource_definition rd ;;
  src <- params_pop "src" ;;
  set_src src ;;
  (if truthy src then set_resource_definitions (load_resource_definitions src)
   else ret tt) ;;
  match rd with
  | VDict d =>
      (if truthy rd then
         set_api_version (get d "apiVersion") ;;
         set_kind (get d "kind")
       else ret tt) ;;
      v <- get_api_version ;;
      (if negb (truthy v) then fail_json no_api_version None else ret tt) ;;
      k <- get_kind ;;
      (if negb (truthy k) then fail_json no_kind None else ret tt) ;;
      set_resource_definitions [d]
  | _ => ret tt
  end.

(** Modelled from the spec: [remove_aliases] of the base class strips the
    alias-only keys from the parameter bag. *)
Definition remove_aliases : M unit :=
  fun s =>
    (Returned tt,
     with_params
       (filter (fun kv => negb (existsb (String.eqb (fst kv)) aliases))
               (params s)) s).

(** Modelled from the spec: [search_resources] of the client returns the
    first endpoint of the registry that satisfies the predicate, and fails
    when there is none. *)
Definition search_resources (predicate : endpoint -> bool) : M endpoint :=
  match find predicate registry with
  | Some r => ret r
  | None => raise ResourceNotFoundError
  end.

(** [head or self.params.get(k)] *)
Definition or_params (head : value) (k : string) : M value :=
  if truthy head then ret head else params_get k.

(** Lines 104-107: the short-circuit on the kind. *)
Definition list_kind (resource : endpoint) (definition : dict)
    (return_attributes : return_attributes) : M unit :=
  kind <- getitem definition "kind" ;;
  is_list <- value_endswith kind "list" ;;
  if is_list then
    namespace <- params_get "namespace" ;;
    k8s_obj <- api resource (CList namespace) ;;
    exit_json (with_result (VDict (to_dict k8s_obj)) return_attributes)
  else ret tt.

(** Lines 109-114: the fetch.  A 404 leaves [existing] as it was. *)
Definition fetch_existing (resource : endpoint) (name namespace : value)
    (existing : option k8s_object) : M (option k8s_object) :=
  try_except_api
    (obj <- api resource (CGet name namespace) ;; ret (Some obj))
    (fun status body =>
       if negb (Z.eqb status 404) then
         fail_json (format "Failed to retrieve requested object: " body)
                   (Some status)
       else ret existing).

(** Lines 117-129: [state == 'absent']. *)
Definition state_absent (resource : endpoint) (name namespace : value)
    (existing : option k8s_object) (return_attributes : return_attributes)
  : M unit :=
  match existing with
  | None => exit_json return_attributes
  | Some _ =>
      check <- get_check_mode ;;
      (if negb check then
         try_except_api
           (api resource (CDelete name namespace) ;; ret tt)
           (fun status body =>
              fail_json (format "Failed to delete object: " body) (Some status))
       else ret tt) ;;
      exit_json (with_changed true return_attributes)
  end.

(** Lines 132-136: nothing exists, create. *)
Definition create_object (resource : endpoint) (definition : dict)
    (namespace : value) (return_attributes : return_attributes) : M unit :=
  check <- get_check_mode ;;
  return_attributes <-
    (if negb check then
       k8s_obj <- api resource (CCreate definition namespace) ;;
       ret (with_result (VDict (to_dict k8s_obj)) return_attributes)
     else ret return_attributes) ;;
  exit_json (with_changed true return_attributes).

(** Lines 139-147: the object exists and [force] is set, replace.
    [k8s_obj] is the binding of that local variable on entry. *)
Definition replace_object (resource : endpoint) (definition : dict)
    (name namespace : value) (k8s_obj : option k8s_object)
    (return_attributes : return_attributes) : M unit :=
  check <- get_check_mode ;;
  k8s_obj <-
    (if negb check then
       try_except_api
         (obj <- api resource (CReplace definition name namespace) ;;
          ret (Some obj))
         (fun status body =>
            fail_json (format "Failed to replace object: " body) (Some status))
     else ret k8s_obj) ;;
  obj <- read_local "k8s_obj" k8s_obj ;;
  exit_json
    (with_changed true (with_result (VDict (to_dict obj)) return_attributes)).

(** Lines 149-167: compare, and update on a difference. *)
Definition update_object (resource : endpoint) (definition : dict)
    (name namespace : value) (existing : k8s_object)
    (k8s_obj : option k8s_object) (return_attributes : return_attributes)
  : M unit :=
  let existing_attrs := to_dict existing in
  if matches definition existing_attrs then
    exit_json (with_result (VDict existing_attrs) return_attributes)
  else
    check <- get_check_mode ;;
    k8s_obj <-
      (if negb check then
         try_except_api
           (obj <- api resource (CUpdate definition name namespace) ;;
            ret (Some obj))
           (fun status body =>
              fail_json (format "Failed to patch object: " body) None)
       else ret k8s_obj) ;;
    obj <- read_local "k8s_obj" k8s_obj ;;
    exit_json
      (with_changed true (with_result (VDict (to_dict obj)) return_attributes)).

(** Lines 131-167: any other [state]. *)
Definition state_present (resource : endpoint) (definition : dict)
    (force name namespace : value) (existing : option k8s_object)
    (return_attributes : return_attributes) : M unit :=
  (* the list branch has left, so [k8s_obj] is not bound here *)
  let k8s_obj : option k8s_object := None in
  match existing with
  | None => create_object resource definition namespace return_attributes
  | Some existing =>
      if truthy force then
        replace_object resource definition name namespace k8s_obj
                       return_attributes
      else
        update_object resource definition name namespace existing k8s_obj
                      return_attributes
  end.

(** [perform_action], lines 93-167. *)
Definition perform_action (resource : endpoint) (definition : dict) : M unit :=
  state <- params_pop_default "state" VNone ;;
  force <- params_pop_default "force" (VBool false) ;;
  name <-
    (head <- value_get (get_default definition "metadata" (VDict [])) "name" ;;
     or_params head "name") ;;
  namespace <-
    (head <- value_get (get_default definition "metadata" (VDict [])) "namespace" ;;
     or_params head "namespace") ;;
  let existing : option k8s_object := None in
  let return_attributes := {| changed := false; result := VDict [] |} in
  remove_aliases ;;
  list_kind resource definition return_attributes ;;
  existing <- fetch_existing resource name namespace existing ;;
  if Py.eqb state (VStr "absent") then
    state_absent resource name namespace existing return_attributes
  else
    state_present resource definition force name namespace existing
                  return_attributes.

(** The body of the loop of [execute_module] for a given way to build the
    predicate. *)
Definition process (predicate_of : dict -> M (endpoint -> bool))
    (definition : dict) : M unit :=
  predicate <- predicate_of definition ;;
  resource <- search_resources predicate ;;
  call_method "perform_action" perform_action_parameters 2
    (perform_action resource definition).

(** [execute_module], lines 87-91.  The predicate is built by
    [self.exact_match(definition)], a call through the instance. *)
Definition execute_module : M unit :=
  definitions <- get_resource_definitions ;;
  for_each
    (process (fun definition =>
                call_method "exact_match" exact_match_parameters 1
                  (ret (exact_match definition))))
    definitions.

(** Constructing the module and running it. *)
Definition run (module_params : dict) (check : bool) : outcome unit * instance :=
  (__init__ ;; execute_module) (new_instance module_params check).

End Module.

(** ** Definitions used in the statements *)

(** One turn of the loop that builds [shared_attrs]. *)
Definition project_key (existing_attrs : dict) (acc : dict) (k : string) : dict :=
  setitem acc k (get existing_attrs k).

(** The diffs of the values at the keys two mappings share. *)
Fixpoint shared_diffs (node : path) (second : dict) (es : dict) : list change :=
  match es with
  | [] => []
  | (k, v) :: es' =>
      match lookup k second with
      | Some w => diff_at (node ++ [KStr k]) v w
      | None => []
      end ++ shared_diffs node second es'
  end.

(** The diffs of the elements at the indices two sequences share. *)
Fixpoint paired_diffs (node : path) (i : nat) (xs ys : list value) : list change :=
  match xs, ys with
  | x :: xs', y :: ys' =>
      diff_at (node ++ [KIdx i]) x y ++ paired_diffs node (S i) xs' ys'
  | _, _ => []
  end.

(** The report a run starts from. *)
Definition initial_attributes : return_attributes :=
  {| changed := false; result := VDict [] |}.

(** The instance once [state] and [force] are popped and the aliases are
    removed: what the blocks after the prelude run on. *)
Definition prepared (aliases : list string) (s : instance) : instance :=
  with_params
    (filter (fun kv => negb (existsb (String.eqb (fst kv)) aliases))
            (remove "force" (remove "state" (params s)))) s.

(** The instance after one more call. *)
Definition logged (c : call) (s : instance) : instance :=
  with_log (log s ++ [c]) s.

Definition param_state (s : instance) : value :=
  get_default (params s) "state" VNone.

Definition param_force (s : instance) : value :=
  get_default (params s) "force" (VBool false).

(** [name] and [namespace] as [perform_action] computes them, for a
    definition whose metadata is the mapping [md]. *)
Definition name_of (md : dict) (s : instance) : value :=
  or_ (get md "name") (get (params s) "name").

Definition namespace_of (md : dict) (s : instance) : value :=
  or_ (get md "namespace") (get (params s) "namespace").

(** ** Concrete runs *)

Module Scenario.

(** The ConfigMap of the scenarios. *)
Definition config_map : dict :=
  [("kind", VStr "ConfigMap"); ("apiVersion", VStr "v1");
   ("metadata", VDict [("name", VStr "a"); ("namespace", VStr "ns")]);
   ("data", VDict [("k", VStr "v")])].

Definition metadata : dict := [("name", VStr "a"); ("namespace", VStr "ns")].

(** The same object as the cluster holds it, with an older value. *)
Definition stale : k8s_object :=
  {| to_dict :=
       [("kind", VStr "ConfigMap"); ("apiVersion", VStr "v1");
        ("metadata", VDict [("name", VStr "a"); ("namespace", VStr "ns")]);
        ("data", VDict [("k", VStr "old")]);
        ("status", VNone)] |}.

Definition stored : k8s_object := {| to_dict := config_map |}.

Definition core_v1 (cluster : list call -> call -> answer) : endpoint :=
  {| kind := "ConfigMap"; group := ""; apiversion := "v1"; respond := cluster |}.

(** A cluster that holds [stale] and accepts every change. *)
Definition holding : list call -> call -> answer :=
  fun _ c =>
    match c with
    | CGet _ _ => Object stale
    | _ => Object stored
    end.

(** A cluster that holds [stale] and refuses every change. *)
Definition refusing : list call -> call -> answer :=
  fun _ c =>
    match c with
    | CGet _ _ => Object stale
    | _ => ApiError 409 "conflict"
    end.

(** A cluster that does not hold the object and refuses to create it. *)
Definition empty_refusing : list call -> call -> answer :=
  fun _ c =>
    match c with
    | CGet _ _ => ApiError 404 "not found"
    | _ => ApiError 403 "forbidden"
    end.

(** A cluster that does not hold the object and accepts every change. *)
Definition empty : list call -> call -> answer :=
  fun _ c =>
    match c with
    | CGet _ _ => ApiError 404 "not found"
    | _ => Object stored
    end.

(** A cluster that cannot be read. *)
Definition broken : list call -> call -> answer :=
  fun _ _ => ApiError 500 "boom".

(** The parameter bag [perform_action] starts from. *)
Definition bag (state : string) (force : bool) : dict :=
  [("state", VStr state); ("force", VBool force);
   ("name", VNone); ("namespace", VNone)].

Definition module (state : string) (force check : bool) : instance :=
  new_instance (bag state force) check.

End Scenario.

Module ListScenario.

(** A definition of a list kind, as the API names them. *)
Definition config_map_list : dict :=
  [("kind", VStr "ConfigMapList"); ("apiVersion", VStr "v1");
   ("metadata", VDict [("name", VStr "a"); ("namespace", VStr "ns")])].

(** A definition whose kind ends in lower-case ["list"]. *)
Definition lower_case : dict :=
  [("kind", VStr "Checklist"); ("apiVersion", VStr "v1");
   ("metadata", VDict [("name", VStr "a"); ("namespace", VStr "ns")])].

Definition listing : k8s_object :=
  {| to_dict := [("kind", VStr "ConfigMapList"); ("items", VList [])] |}.

(** A cluster that lists, has no object under the requested name, and
    accepts a create. *)
Definition cluster : list call -> call -> answer :=
  fun _ c =>
    match c with
    | CList _ => Object listing
    | CGet _ _ => ApiError 404 "not found"
    | _ => Object Scenario.stored
    end.

Definition resource : endpoint :=
  {| kind := "ConfigMapList"; group := ""; apiversion := "v1";
     respond := cluster |}.

Definition bag : dict :=
  [("state", VStr "present"); ("force", VBool false);
   ("name", VNone); ("namespace", VStr "ns")].

End ListScenario.

(** A computation that, started under check mode, stays under check mode
    and adds no mutating call to the log. *)
Definition quiet {A} (m : M A) : Prop :=
  forall s, check_mode s = true ->
    check_mode (snd (m s)) = true /\
    exists l, log (snd (m s)) = log s ++ l /\
              forallb (fun c => negb (mutating c)) l = true.

(** A computation that never returns to its caller. *)
Definition never_returns {A} (m : M A) : Prop :=
  forall s a, fst (m s) <> Returned a.


(** The words of a message contain [word]. *)
Definition mentions (word : string) (msg : message) : bool :=
  match msg with
  | Text s => contains word s
  | Tuple parts => existsb (contains word) parts
  end.

(** The instance after the four pops of the constructor and the load of
    [src]. *)
Definition popped (load_resource_definitions : value -> list dict)
    (module_params : dict) (check : bool)
    (kind_param api_version_param src_param : value) (inline : dict)
  : instance :=
  {| params :=
       remove "src"
         (remove "resource_definition"
            (remove "api_version" (remove "kind" module_params)));
     check_mode := check;
     self_kind := kind_param;
     self_api_version := api_version_param;
     self_resource_definition := VDict inline;
     self_src := src_param;
     resource_definitions :=
       if truthy src_param then Some (load_resource_definitions src_param)
       else None;
     log := [] |}.

(** The checks of lines 56-71 on the instance the pops leave. *)
Definition checks (inline : dict) : M unit :=
  (if truthy (VDict inline) then
     set_api_version (get inline "apiVersion") ;;
     set_kind (get inline "kind")
   else ret tt) ;;
  v <- get_api_version ;;
  (if negb (truthy v) then fail_json no_api_version None else ret tt) ;;
  k <- get_kind ;;
  (if negb (truthy k) then fail_json no_kind None else ret tt) ;;
  set_resource_definitions [inline].

(** ** The argument specification, lines 73-77 *)

(** [d.update(other)]: every entry of [other] is assigned into [d]. *)
Definition update (d other : dict) : dict :=
  fold_left (fun acc kv => setitem acc (fst kv) (snd kv)) other d.

(** [copy.deepcopy] of a value tree is the same tree. *)
Definition deepcopy (d : dict) : dict := d.

Section ArgSpec.

(** The two specifications imported from the helper module. *)
Variable COMMON_ARG_SPEC : dict.
Variable AUTH_ARG_SPEC : dict.

(** The property [argspec]. *)
Definition argspec : dict :=
  let argspec := deepcopy COMMON_ARG_SPEC in
  update argspec (deepcopy AUTH_ARG_SPEC).

End ArgSpec.

(** A value all of whose mappings, at any depth, have distinct keys: the
    values Python can build. *)
Fixpoint well_formed (v : value) : bool :=
  match v with
  | VList l =>
      (fix elements (l : list value) : bool :=
         match l with
         | [] => true
         | x :: l' => well_formed x && elements l'
         end) l
  | VDict d =>
      distinct (keys d) &&
      (fix entries (d : list (string * value)) : bool :=
         match d with
         | [] => true
         | kv :: d' => well_formed (snd kv) && entries d'
         end) d
  | _ => true
  end.

(** * Properties *)

(** ** Dictionaries *)

Section DictFacts.

Lemma lookup_setitem (d : dict) (k k' : string) (v : value) :
  lookup k (setitem d k' v) = if String.eqb k k' then Some v else lookup k d.
Proof.
  induction d as [|[k0 v0] d IH]; simpl.
  - reflexivity.
  - destruct (String.eqb k' k0) eqn:E0; simpl.
    + apply String.eqb_eq in E0; subst k0.
      destruct (String.eqb k k'); reflexivity.
    + rewrite IH. destruct (String.eqb k k0) eqn:E1; [|reflexivity].
      apply String.eqb_eq in E1; subst k0.
      rewrite String.eqb_sym, E0. reflexivity.
Qed.

Lemma lookup_remove (d : dict) (k k' : string) :
  lookup k (remove k' d) = if String.eqb k' k then None else lookup k d.
Proof.
  unfold remove.
  induction d as [|[k0 v0] d IH]; simpl.
  - destruct (String.eqb k' k); reflexivity.
  - destruct (String.eqb k' k0) eqn:E0; simpl.
    + rewrite IH. apply String.eqb_eq in E0; subst k0.
      rewrite (String.eqb_sym k k'). destruct (String.eqb k' k); reflexivity.
    + rewrite IH. destruct (String.eqb k k0) eqn:E1; [|reflexivity].
      apply String.eqb_eq in E1; subst k0. rewrite E0. reflexivity.
Qed.

Lemma get_default_remove (d : dict) (k k' : string) (v : value) :
  String.eqb k' k = false -> get_default (remove k' d) k v = get_default d k v.
Proof. intros E. unfold get_default. rewrite lookup_remove, E. reflexivity. Qed.

Lemma get_remove (d : dict) (k k' : string) :
  String.eqb k' k = false -> get (remove k' d) k = get d k.
Proof. apply get_default_remove. Qed.

Lemma lookup_in_keys (d : dict) (k : string) :
  In k (keys d) <-> lookup k d <> None.
Proof.
  induction d as [|[k0 v0] d IH]; simpl.
  - split; [tauto | congruence].
  - destruct (String.eqb k k0) eqn:E.
    + apply String.eqb_eq in E. split; [congruence | auto].
    + apply String.eqb_neq in E. rewrite <- IH. split.
      * intros [H|H]; [congruence | exact H].
      * auto.
Qed.

Lemma mem_in_keys (d : dict) (k : string) : mem k d = true <-> In k (keys d).
Proof.
  rewrite lookup_in_keys. unfold mem.
  destruct (lookup k d); split; congruence.
Qed.

Lemma distinct_NoDup (ks : list string) : distinct ks = true -> NoDup ks.
Proof.
  induction ks as [|k ks IH]; simpl; intros H.
  - constructor.
  - apply andb_true_iff in H as [H1 H2]. constructor; [|auto].
    intros Hin. apply negb_true_iff in H1.
    assert (existsb (String.eqb k) ks = true); [|congruence].
    apply existsb_exists. exists k. split; [exact Hin | apply String.eqb_refl].
Qed.

(** With distinct keys, the entries are what [lookup] finds. *)
Lemma lookup_entry (d : dict) (k : string) (v : value) :
  NoDup (keys d) -> (In (k, v) d <-> lookup k d = Some v).
Proof.
  induction d as [|[k0 v0] d IH]; simpl; intros ND.
  - split; [tauto | congruence].
  - inversion ND as [|? ? Hnot ND']; subst.
    destruct (String.eqb k k0) eqn:E.
    + apply String.eqb_eq in E; subst k0. split.
      * intros [H|H]; [congruence|].
        exfalso. apply Hnot. change k with (fst (k, v)). apply in_map, H.
      * intros H. left. congruence.
    + apply String.eqb_neq in E. rewrite <- (IH ND'). split.
      * intros [H|H]; [congruence | exact H].
      * auto.
Qed.

End DictFacts.

(** ** The diff and the comparison *)

(** Induction on values with the hypothesis on every element of a sequence
    and every entry of a mapping. *)
Lemma value_nested_ind (P : value -> Prop) :
  P VNone ->
  (forall b, P (VBool b)) ->
  (forall n, P (VInt n)) ->
  (forall s, P (VStr s)) ->
  (forall l, Forall P l -> P (VList l)) ->
  (forall d, Forall (fun kv => P (snd kv)) d -> P (VDict d)) ->
  forall v, P v.
Proof.
  intros PNone PBool PInt PStr PList PDict.
  fix IH 1. intros [| b | n | s | l | d].
  - exact PNone.
  - apply PBool.
  - apply PInt.
  - apply PStr.
  - apply PList. induction l as [|x l IHl]; constructor; [apply IH | exact IHl].
  - apply PDict. induction d as [|kv d IHd]; constructor;
      [apply IH | exact IHd].
Qed.

Lemma diff_at_dict (node : path) (d1 d2 : dict) :
  diff_at node (VDict d1) (VDict d2) =
  when_nonempty (addition d1 d2) (Add node (addition d1 d2)) ++
  when_nonempty (deletion d1 d2) (Remove node (deletion d1 d2)) ++
  shared_diffs node d2 d1.
Proof.
  simpl. do 2 f_equal.
  induction d1 as [|[k v] es IH]; simpl; [reflexivity|].
  rewrite IH. reflexivity.
Qed.

Lemma diff_at_list (node : path) (l1 l2 : list value) :
  diff_at node (VList l1) (VList l2) =
  let n := Nat.min (List.length l1) (List.length l2) in
  when_nonempty (skipn n l2) (Add node (indexed_from n (skipn n l2))) ++
  when_nonempty (skipn n l1) (Remove node (rev (indexed_from n (skipn n l1)))) ++
  paired_diffs node 0 l1 l2.
Proof.
  cbv zeta. cbn [diff_at]. do 2 f_equal.
  generalize 0%nat. revert l2.
  induction l1 as [|x xs IH]; intros [|y ys] i; simpl; try reflexivity.
  rewrite IH. reflexivity.
Qed.

Lemma when_nonempty_nil {A} (l : list A) (c : change) :
  when_nonempty l c = [] <-> l = [].
Proof. destruct l; simpl; split; congruence. Qed.

Lemma app_nil_iff {A} (l1 l2 : list A) : l1 ++ l2 = [] <-> l1 = [] /\ l2 = [].
Proof.
  split.
  - apply app_eq_nil.
  - intros [-> ->]. reflexivity.
Qed.

(** Whether a diff is empty does not depend on the path it is reported at. *)
Lemma diff_at_empty_path (first : value) :
  forall second p q, diff_at p first second = [] -> diff_at q first second = [].
Proof.
  induction first as [| b | n | s | l IH | d IH] using value_nested_ind;
    intros second p q H; try (destruct second; simpl in *;
      solve [ exact H | discriminate H | destruct (Bool.eqb _ _); congruence
            | destruct (Z.eqb _ _); congruence
            | destruct (String.eqb _ _); congruence ]).
  - destruct second as [| | | | l2 | ]; try (simpl in *; congruence).
    rewrite diff_at_list in *. cbv zeta in *.
    apply app_nil_iff in H as [Ha H]. apply app_nil_iff in H as [Hd Hs].
    apply when_nonempty_nil in Ha. apply when_nonempty_nil in Hd.
    rewrite Ha, Hd. simpl.
    clear Ha Hd. revert Hs. generalize 0%nat. revert l2.
    induction IH as [|x xs Hx _ IHxs]; intros [|y ys] i; simpl; try reflexivity.
    intros Hs. apply app_nil_iff in Hs as [H1 H2].
    rewrite (Hx _ _ _ H1). simpl. eapply IHxs, H2.
  - destruct second as [| | | | | d2]; try (simpl in *; congruence).
    rewrite diff_at_dict in *.
    apply app_nil_iff in H as [Ha H]. apply app_nil_iff in H as [Hd Hs].
    apply when_nonempty_nil in Ha. apply when_nonempty_nil in Hd.
    rewrite Ha, Hd. simpl.
    clear Ha Hd. revert Hs.
    induction IH as [|[k v] es Hv _ IHes]; simpl; [reflexivity|].
    intros Hs. apply app_nil_iff in Hs as [H1 H2].
    rewrite (IHes H2), app_nil_r.
    destruct (lookup k d2); [|reflexivity].
    eapply Hv, H1.
Qed.

Lemma diff_at_empty_iff (p : path) (first second : value) :
  diff_at p first second = [] <-> diff first second = [].
Proof. split; apply diff_at_empty_path. Qed.

Lemma shared_diffs_empty (node : path) (second es : dict) :
  shared_diffs node second es = [] <->
  forall k v w, In (k, v) es -> lookup k second = Some w -> diff v w = [].
Proof.
  induction es as [|[k0 v0] es IH]; simpl.
  - split; [intros _ ? ? ? [] | reflexivity].
  - rewrite app_nil_iff, IH. split.
    + intros [H1 H2] k v w [E|Hin] Hl.
      * inversion E; subst. rewrite Hl in H1.
        exact (proj1 (diff_at_empty_iff _ _ _) H1).
      * eapply H2; eassumption.
    + intros H. split.
      * destruct (lookup k0 second) as [w|] eqn:Hl; [|reflexivity].
        apply (proj2 (diff_at_empty_iff _ _ _)).
        eapply H; [left; reflexivity | exact Hl].
      * intros k v w Hin. apply H. right. exact Hin.
Qed.

Lemma filter_nil {A} (f : A -> bool) (l : list A) :
  (forall x, In x l -> f x = false) -> filter f l = [].
Proof.
  induction l as [|x l IH]; simpl; intros H; [reflexivity|].
  rewrite (H x) by auto. apply IH. auto.
Qed.

Section SharedAttrs.

Variable existing_attrs : dict.

Lemma lookup_fold_other (ks : list string) (acc : dict) (k : string) :
  ~ In k ks ->
  lookup k (fold_left (project_key existing_attrs) ks acc) = lookup k acc.
Proof.
  revert acc. induction ks as [|k0 ks IH]; simpl; intros acc H; [reflexivity|].
  assert (Hk : ~ In k ks) by (intro; apply H; right; assumption).
  rewrite (IH _ Hk). unfold project_key. rewrite lookup_setitem.
  destruct (String.eqb k k0) eqn:E; [|reflexivity].
  apply String.eqb_eq in E. exfalso. apply H. left. congruence.
Qed.

Lemma lookup_fold_key (ks : list string) (acc : dict) (k : string) :
  In k ks ->
  lookup k (fold_left (project_key existing_attrs) ks acc) =
  Some (get existing_attrs k).
Proof.
  revert acc. induction ks as [|k0 ks IH]; simpl; intros acc H; [contradiction|].
  destruct (in_dec string_dec k ks) as [Hin|Hout].
  - apply IH, Hin.
  - destruct H as [->|H]; [|contradiction].
    rewrite lookup_fold_other by exact Hout.
    unfold project_key. rewrite lookup_setitem, String.eqb_refl. reflexivity.
Qed.

(** The projection has the keys of the definition, each with the value
    [existing_attrs.get] gives. *)
Lemma lookup_shared_attrs (definition : dict) (k : string) :
  lookup k (shared_attrs definition existing_attrs) =
  if mem k definition then Some (get existing_attrs k) else None.
Proof.
  unfold shared_attrs. change (fun acc k => setitem acc k (get existing_attrs k))
    with (project_key existing_attrs).
  destruct (mem k definition) eqn:E.
  - apply lookup_fold_key, mem_in_keys, E.
  - rewrite lookup_fold_other; [reflexivity|].
    rewrite <- mem_in_keys. congruence.
Qed.

End SharedAttrs.

Lemma in_lookup (d : dict) (k : string) (v : value) :
  In (k, v) d -> lookup k d <> None.
Proof.
  intros H. apply lookup_in_keys. change k with (fst (k, v)). apply in_map, H.
Qed.

(** The comparison is empty exactly when every entry of the definition has
    an empty diff with what the existing object holds at its key. *)
Lemma matches_entries (definition existing_attrs : dict) :
  matches definition existing_attrs = true <->
  forall k v, In (k, v) definition -> diff v (get existing_attrs k) = [].
Proof.
  unfold matches, diffs, diff. rewrite Nat.eqb_eq, length_zero_iff_nil.
  rewrite diff_at_dict.
  assert (Ha : addition definition (shared_attrs definition existing_attrs) = []).
  { unfold addition. rewrite filter_nil; [reflexivity|].
    intros [k v] Hin. simpl. apply in_lookup in Hin.
    rewrite lookup_shared_attrs in Hin.
    destruct (mem k definition); [reflexivity | congruence]. }
  assert (Hd : deletion definition (shared_attrs definition existing_attrs) = []).
  { unfold deletion. rewrite filter_nil; [reflexivity|].
    intros [k v] Hin. simpl. apply in_lookup, lookup_in_keys, mem_in_keys in Hin.
    unfold mem at 1. rewrite lookup_shared_attrs, Hin. reflexivity. }
  rewrite Ha, Hd. simpl. rewrite shared_diffs_empty. split.
  - intros H k v Hin. apply (H k v _ Hin).
    rewrite lookup_shared_attrs.
    apply in_lookup, lookup_in_keys, mem_in_keys in Hin. rewrite Hin. reflexivity.
  - intros H k v w Hin Hl. rewrite lookup_shared_attrs in Hl.
    destruct (mem k definition); [|congruence].
    inversion Hl; subst. apply H, Hin.
Qed.

(** The projection reads the existing object at the keys of the definition
    only. *)
Lemma shared_attrs_ext (definition e1 e2 : dict) :
  (forall k, In k (keys definition) -> get e1 k = get e2 k) ->
  shared_attrs definition e1 = shared_attrs definition e2.
Proof.
  unfold shared_attrs. generalize (@nil (string * value)).
  induction (keys definition) as [|k ks IH]; simpl; intros acc H; [reflexivity|].
  rewrite (H k) by auto. apply IH. auto.
Qed.

(** C4.  For a definition D (a dictionary, so with distinct keys) and an
    existing object E, the comparison of [perform_action] succeeds iff for
    every top-level key k of D the deep diff of D[k] and E.get(k) is empty;
    and any E' that agrees with E at the top-level keys of D, whatever its
    other keys hold, gets the same verdict. *)
Theorem matches_top_level_keys (D E : dict) :
  distinct (keys D) = true ->
  (matches D E = true <->
   forall k, In k (keys D) -> diff (get D k) (get E k) = []) /\
  (forall E', (forall k, In k (keys D) -> get E' k = get E k) ->
              matches D E' = matches D E).
Proof.
  intros HD. apply distinct_NoDup in HD. split.
  - rewrite matches_entries. split.
    + intros H k Hin. apply lookup_in_keys in Hin.
      destruct (lookup k D) as [v|] eqn:Hl; [|congruence].
      unfold get, get_default. rewrite Hl. apply H.
      apply lookup_entry; assumption.
    + intros H k v Hin. apply lookup_entry in Hin; [|exact HD].
      specialize (H k). unfold get at 1, get_default in H. rewrite Hin in H.
      apply H, lookup_in_keys. congruence.
  - intros E' H. unfold matches, diffs.
    rewrite (shared_attrs_ext D E' E H). reflexivity.
Qed.

Lemma matches_top_level_keys_witness :
  let D := [("kind", VStr "ConfigMap"); ("data", VDict [("k", VStr "v")])] in
  let E := [("kind", VStr "ConfigMap"); ("data", VDict [("k", VStr "v")]);
            ("status", VStr "Active")] in
  distinct (keys D) = true /\
  (matches D E = true <->
   forall k, In k (keys D) -> diff (get D k) (get E k) = []) /\
  (forall E', (forall k, In k (keys D) -> get E' k = get E k) ->
              matches D E' = matches D E).
Proof.
  split; [reflexivity|].
  exact (matches_top_level_keys
           [("kind", VStr "ConfigMap"); ("data", VDict [("k", VStr "v")])]
           [("kind", VStr "ConfigMap"); ("data", VDict [("k", VStr "v")]);
            ("status", VStr "Active")] eq_refl).
Defined.

(** The scenarios of the comparison: a key of the existing object that the
    definition does not have at top level is ignored, a key it does not
    have inside a nested mapping is a difference. *)
Lemma matches_scenarios :
  let D := [("kind", VStr "ConfigMap"); ("data", VDict [("k", VStr "v")])] in
  matches D (D ++ [("status", VStr "Active")]) = true /\
  matches D [("kind", VStr "ConfigMap"); ("data", VDict [("k", VStr "old")])]
    = false /\
  matches D [("kind", VStr "ConfigMap");
             ("data", VDict [("k", VStr "v"); ("extra", VStr "x")])] = false.
Proof. repeat split; reflexivity. Qed.

(** ** The blocks of [perform_action] *)

Section Blocks.

Variable aliases : list string.
Variable resource : endpoint.
Variable definition : dict.

Lemma perform_action_prelude (md : dict) (s : instance) :
  get_default definition "metadata" (VDict []) = VDict md ->
  perform_action aliases resource definition s =
  (list_kind resource definition initial_attributes ;;
   existing <- fetch_existing resource (name_of md s) (namespace_of md s) None ;;
   if Py.eqb (param_state s) (VStr "absent") then
     state_absent resource (name_of md s) (namespace_of md s) existing
                  initial_attributes
   else
     state_present resource definition (param_force s) (name_of md s)
                   (namespace_of md s) existing initial_attributes)
    (prepared aliases s).
Proof.
  intros Hmd. unfold perform_action. rewrite Hmd.
  unfold name_of, namespace_of, or_, param_state, param_force, prepared.
  unfold bind at 1 2 3 4 5 6 7.
  unfold params_pop_default, value_get, or_params, params_get, remove_aliases, ret.
  destruct (truthy (get md "name")), (truthy (get md "namespace"));
    cbn [params with_params];
    rewrite ?get_remove, ?get_default_remove by reflexivity; reflexivity.
Qed.

Lemma list_kind_skipped (k : string) (ra : return_attributes) (s : instance) :
  lookup "kind" definition = Some (VStr k) ->
  endswith k "list" = false ->
  list_kind resource definition ra s = (Returned tt, s).
Proof.
  intros Hk He. unfold list_kind, getitem, bind, value_endswith, ret.
  rewrite Hk. simpl. rewrite He. reflexivity.
Qed.

Lemma list_kind_taken (k : string) (ra : return_attributes) (s : instance) :
  lookup "kind" definition = Some (VStr k) ->
  endswith k "list" = true ->
  list_kind resource definition ra s =
  match respond resource (log s) (CList (get (params s) "namespace")) with
  | Object obj =>
      (ExitJson (with_result (VDict (to_dict obj)) ra),
       logged (CList (get (params s) "namespace")) s)
  | ApiError status body =>
      (Raised (ApiException status body),
       logged (CList (get (params s) "namespace")) s)
  end.
Proof.
  intros Hk He.
  unfold list_kind, getitem, bind, value_endswith, ret, params_get, api, exit_json.
  rewrite Hk. simpl. rewrite He.
  destruct (respond resource (log s) _); reflexivity.
Qed.

Lemma fetch_existing_eq (name namespace : value) (existing : option k8s_object)
    (s : instance) :
  fetch_existing resource name namespace existing s =
  match respond resource (log s) (CGet name namespace) with
  | Object obj => (Returned (Some obj), logged (CGet name namespace) s)
  | ApiError status body =>
      if Z.eqb status 404 then (Returned existing, logged (CGet name namespace) s)
      else (FailJson (format "Failed to retrieve requested object: " body)
                     (Some status),
            logged (CGet name namespace) s)
  end.
Proof.
  unfold fetch_existing, try_except_api, bind, api, ret, fail_json, logged.
  destruct (respond resource (log s) _) as [obj|status body]; [reflexivity|].
  destruct (Z.eqb status 404); reflexivity.
Qed.

Lemma state_absent_eq (name namespace : value) (existing : option k8s_object)
    (ra : return_attributes) (s : instance) :
  state_absent resource name namespace existing ra s =
  match existing with
  | None => (ExitJson ra, s)
  | Some _ =>
      if check_mode s then (ExitJson (with_changed true ra), s)
      else
        match respond resource (log s) (CDelete name namespace) with
        | Object _ =>
            (ExitJson (with_changed true ra), logged (CDelete name namespace) s)
        | ApiError status body =>
            (FailJson (format "Failed to delete object: " body) (Some status),
             logged (CDelete name namespace) s)
        end
  end.
Proof.
  unfold state_absent, get_check_mode, try_except_api, bind, api, ret,
    exit_json, fail_json, logged.
  destruct existing; [|reflexivity].
  destruct (check_mode s); [reflexivity|]. simpl.
  destruct (respond resource (log s) _); reflexivity.
Qed.

Lemma create_object_eq (namespace : value) (ra : return_attributes)
    (s : instance) :
  create_object resource definition namespace ra s =
  if check_mode s then (ExitJson (with_changed true ra), s)
  else
    match respond resource (log s) (CCreate definition namespace) with
    | Object obj =>
        (ExitJson (with_changed true (with_result (VDict (to_dict obj)) ra)),
         logged (CCreate definition namespace) s)
    | ApiError status body =>
        (Raised (ApiException status body),
         logged (CCreate definition namespace) s)
    end.
Proof.
  unfold create_object, get_check_mode, bind, api, ret, exit_json, logged.
  destruct (check_mode s); [reflexivity|]. simpl.
  destruct (respond resource (log s) _); reflexivity.
Qed.

Lemma replace_object_eq (name namespace : value) (k8s_obj : option k8s_object)
    (ra : return_attributes) (s : instance) :
  replace_object resource definition name namespace k8s_obj ra s =
  if check_mode s then
    match k8s_obj with
    | Some obj =>
        (ExitJson (with_changed true (with_result (VDict (to_dict obj)) ra)), s)
    | None => (Raised (UnboundLocalError "k8s_obj"), s)
    end
  else
    match respond resource (log s) (CReplace definition name namespace) with
    | Object obj =>
        (ExitJson (with_changed true (with_result (VDict (to_dict obj)) ra)),
         logged (CReplace definition name namespace) s)
    | ApiError status body =>
        (FailJson (format "Failed to replace object: " body) (Some status),
         logged (CReplace definition name namespace) s)
    end.
Proof.
  unfold replace_object, get_check_mode, try_except_api, bind, api, ret,
    read_local, raise, exit_json, fail_json, logged.
  destruct (check_mode s); simpl.
  - destruct k8s_obj; reflexivity.
  - destruct (respond resource (log s) _); reflexivity.
Qed.

Lemma update_object_eq (name namespace : value) (existing : k8s_object)
    (k8s_obj : option k8s_object) (ra : return_attributes) (s : instance) :
  update_object resource definition name namespace existing k8s_obj ra s =
  if matches definition (to_dict existing) then
    (ExitJson (with_result (VDict (to_dict existing)) ra), s)
  else if check_mode s then
    match k8s_obj with
    | Some obj =>
        (ExitJson (with_changed true (with_result (VDict (to_dict obj)) ra)), s)
    | None => (Raised (UnboundLocalError "k8s_obj"), s)
    end
  else
    match respond resource (log s) (CUpdate definition name namespace) with
    | Object obj =>
        (ExitJson (with_changed true (with_result (VDict (to_dict obj)) ra)),
         logged (CUpdate definition name namespace) s)
    | ApiError status body =>
        (FailJson (format "Failed to patch object: " body) None,
         logged (CUpdate definition name namespace) s)
    end.
Proof.
  unfold update_object, get_check_mode, try_except_api, bind, api, ret,
    read_local, raise, exit_json, fail_json, logged.
  destruct (matches definition (to_dict existing)); [reflexivity|].
  destruct (check_mode s); simpl.
  - destruct k8s_obj; reflexivity.
  - destruct (respond resource (log s) _); reflexivity.
Qed.

(** With a mapping as metadata and a kind that does not end in ["list"],
    [perform_action] is the fetch followed by the branch on [state]. *)
Lemma perform_action_reconcile (md : dict) (k : string) (s : instance) :
  get_default definition "metadata" (VDict []) = VDict md ->
  lookup "kind" definition = Some (VStr k) ->
  endswith k "list" = false ->
  perform_action aliases resource definition s =
  (existing <- fetch_existing resource (name_of md s) (namespace_of md s) None ;;
   if Py.eqb (param_state s) (VStr "absent") then
     state_absent resource (name_of md s) (namespace_of md s) existing
                  initial_attributes
   else
     state_present resource definition (param_force s) (name_of md s)
                   (namespace_of md s) existing initial_attributes)
    (prepared aliases s).
Proof.
  intros Hmd Hk He. rewrite (perform_action_prelude md s Hmd).
  unfold bind at 1. rewrite (list_kind_skipped k _ _ Hk He). reflexivity.
Qed.

End Blocks.

(** ** The fetch *)

Section Fetch.

Variable aliases : list string.
Variable resource : endpoint.
Variable definition : dict.
Variables (md : dict) (k : string) (s : instance).

Hypothesis metadata_mapping :
  get_default definition "metadata" (VDict []) = VDict md.
Hypothesis kind_string : lookup "kind" definition = Some (VStr k).
Hypothesis not_list : endswith k "list" = false.

Let name := name_of md s.
Let namespace := namespace_of md s.
Let fetched := logged (CGet name namespace) (prepared aliases s).

Lemma perform_action_fetch_failed (status : Z) (body : string) :
  respond resource (log s) (CGet name namespace) = ApiError status body ->
  perform_action aliases resource definition s =
  if Z.eqb status 404 then
    if Py.eqb (param_state s) (VStr "absent") then
      (ExitJson initial_attributes, fetched)
    else create_object resource definition namespace initial_attributes fetched
  else
    (FailJson (Text ("Failed to retrieve requested object: " ++ body)%string)
              (Some status), fetched).
Proof.
  intros Hg.
  rewrite (perform_action_reconcile aliases resource definition md k s
             metadata_mapping kind_string not_list).
  unfold bind. rewrite fetch_existing_eq.
  change (log (prepared aliases s)) with (log s).
  fold name namespace. rewrite Hg.
  destruct (Z.eqb status 404); [|reflexivity].
  destruct (Py.eqb (param_state s) (VStr "absent")); reflexivity.
Qed.

Lemma perform_action_fetched (e : k8s_object) :
  respond resource (log s) (CGet name namespace) = Object e ->
  perform_action aliases resource definition s =
  if Py.eqb (param_state s) (VStr "absent") then
    state_absent resource name namespace (Some e) initial_attributes fetched
  else if truthy (param_force s) then
    replace_object resource definition name namespace None initial_attributes
                   fetched
  else
    update_object resource definition name namespace e None initial_attributes
                  fetched.
Proof.
  intros Hg.
  rewrite (perform_action_reconcile aliases resource definition md k s
             metadata_mapping kind_string not_list).
  unfold bind. rewrite fetch_existing_eq.
  change (log (prepared aliases s)) with (log s).
  fold name namespace. rewrite Hg.
  destruct (Py.eqb (param_state s) (VStr "absent")); [reflexivity|].
  unfold state_present. destruct (truthy (param_force s)); reflexivity.
Qed.

End Fetch.

(** ** Claims about the fetch and the branches *)

(** C5.  When the fetch of the existing object fails with status 404, the
    run goes on exactly as with no existing object: it leaves through
    [exit_json] unchanged when [state] is ['absent'], and enters the create
    branch otherwise.  When it fails with any other status, the run ends in
    [fail_json] with the message ["Failed to retrieve requested object: "]
    followed by the response body and with [error] set to the status; the
    get is the only call made, so nothing is retried. *)
Theorem fetch_not_found_is_absent_other_status_fails
    (aliases : list string) (resource : endpoint) (definition md : dict)
    (k : string) (s : instance) (status : Z) (body : string) :
  get_default definition "metadata" (VDict []) = VDict md ->
  lookup "kind" definition = Some (VStr k) ->
  endswith k "list" = false ->
  respond resource (log s) (CGet (name_of md s) (namespace_of md s)) =
    ApiError status body ->
  let fetched :=
    logged (CGet (name_of md s) (namespace_of md s)) (prepared aliases s) in
  log fetched = log s ++ [CGet (name_of md s) (namespace_of md s)] /\
  (status = 404%Z ->
   perform_action aliases resource definition s =
   if Py.eqb (param_state s) (VStr "absent") then
     (ExitJson {| changed := false; result := VDict [] |}, fetched)
   else
     create_object resource definition (namespace_of md s) initial_attributes
                   fetched) /\
  (status <> 404%Z ->
   perform_action aliases resource definition s =
   (FailJson (Text ("Failed to retrieve requested object: " ++ body)%string)
             (Some status), fetched)).
Proof.
  intros Hmd Hk He Hg fetched. split; [reflexivity|].
  rewrite (perform_action_fetch_failed aliases resource definition md k s
             Hmd Hk He status body Hg).
  split; intros Hs.
  - subst status. reflexivity.
  - apply Z.eqb_neq in Hs. rewrite Hs. reflexivity.
Qed.

Lemma fetch_not_found_is_absent_other_status_fails_witness :
  let s := Scenario.module "absent" false false in
  let fetched := logged (CGet (VStr "a") (VStr "ns")) (prepared [] s) in
  perform_action [] (Scenario.core_v1 Scenario.broken) Scenario.config_map s =
    (FailJson (Text "Failed to retrieve requested object: boom") (Some 500%Z),
     fetched) /\
  perform_action [] (Scenario.core_v1 Scenario.empty) Scenario.config_map s =
    (ExitJson {| changed := false; result := VDict [] |}, fetched).
Proof.
  split.
  - apply (fetch_not_found_is_absent_other_status_fails
             [] (Scenario.core_v1 Scenario.broken) Scenario.config_map
             Scenario.metadata "ConfigMap"
             (Scenario.module "absent" false false) 500 "boom"
             eq_refl eq_refl eq_refl eq_refl).
    discriminate.
  - apply (fetch_not_found_is_absent_other_status_fails
             [] (Scenario.core_v1 Scenario.empty) Scenario.config_map
             Scenario.metadata "ConfigMap"
             (Scenario.module "absent" false false) 404 "not found"
             eq_refl eq_refl eq_refl eq_refl).
    reflexivity.
Defined.

(** C10.  Under check mode, once the object exists and [state] is not
    ['absent'], both the branch taken when [force] is set and the branch
    taken when [force] is unset and the comparison finds a difference read
    the local variable [k8s_obj] while it is unbound: the run ends in
    [UnboundLocalError] right after the get, and not in [exit_json]. *)
Theorem check_mode_reads_unbound_k8s_obj
    (aliases : list string) (resource : endpoint) (definition md : dict)
    (k : string) (s : instance) (e : k8s_object) :
  check_mode s = true ->
  get_default definition "metadata" (VDict []) = VDict md ->
  lookup "kind" definition = Some (VStr k) ->
  endswith k "list" = false ->
  respond resource (log s) (CGet (name_of md s) (namespace_of md s)) = Object e ->
  Py.eqb (param_state s) (VStr "absent") = false ->
  truthy (param_force s) = true \/
  (truthy (param_force s) = false /\ matches definition (to_dict e) = false) ->
  perform_action aliases resource definition s =
  (Raised (UnboundLocalError "k8s_obj"),
   logged (CGet (name_of md s) (namespace_of md s)) (prepared aliases s)).
Proof.
  intros Hc Hmd Hk He Hg Hs Hb.
  rewrite (perform_action_fetched aliases resource definition md k s
             Hmd Hk He e Hg), Hs.
  destruct Hb as [Hf | [Hf Hm]]; rewrite Hf.
  - rewrite replace_object_eq. cbn [check_mode logged with_log prepared with_params].
    rewrite Hc. reflexivity.
  - rewrite update_object_eq, Hm.
    cbn [check_mode logged with_log prepared with_params].
    rewrite Hc. reflexivity.
Qed.

Lemma check_mode_reads_unbound_k8s_obj_witness :
  (perform_action [] (Scenario.core_v1 Scenario.holding) Scenario.config_map
     (Scenario.module "present" true true) =
   (Raised (UnboundLocalError "k8s_obj"),
    logged (CGet (VStr "a") (VStr "ns"))
           (prepared [] (Scenario.module "present" true true)))) /\
  (perform_action [] (Scenario.core_v1 Scenario.holding) Scenario.config_map
     (Scenario.module "present" false true) =
   (Raised (UnboundLocalError "k8s_obj"),
    logged (CGet (VStr "a") (VStr "ns"))
           (prepared [] (Scenario.module "present" false true)))).
Proof.
  split.
  - exact (check_mode_reads_unbound_k8s_obj
             [] (Scenario.core_v1 Scenario.holding) Scenario.config_map
             Scenario.metadata "ConfigMap" (Scenario.module "present" true true)
             Scenario.stale eq_refl eq_refl eq_refl eq_refl eq_refl eq_refl
             (or_introl eq_refl)).
  - exact (check_mode_reads_unbound_k8s_obj
             [] (Scenario.core_v1 Scenario.holding) Scenario.config_map
             Scenario.metadata "ConfigMap" (Scenario.module "present" false true)
             Scenario.stale eq_refl eq_refl eq_refl eq_refl eq_refl eq_refl
             (or_intror (conj eq_refl eq_refl))).
Defined.




(** ** Check mode *)

Lemma quiet_pure {A} (m : M A) :
  (forall s, check_mode (snd (m s)) = check_mode s /\ log (snd (m s)) = log s) ->
  quiet m.
Proof.
  intros H s Hc. destruct (H s) as [H1 H2]. split; [congruence|].
  exists []. rewrite app_nil_r. auto.
Qed.

Lemma quiet_bind {A B} (m : M A) (f : A -> M B) :
  quiet m -> (forall a, quiet (f a)) -> quiet (bind m f).
Proof.
  intros Hm Hf s Hc. unfold bind.
  destruct (Hm s Hc) as [Hc' [l [Hl Hq]]].
  destruct (m s) as [[a | r | msg e | e] s']; simpl in *;
    try (split; [exact Hc' | exists l; auto]).
  destruct (Hf a s' Hc') as [Hc'' [l' [Hl' Hq']]].
  split; [exact Hc''|]. exists (l ++ l'). split.
  - rewrite Hl', Hl, app_assoc. reflexivity.
  - rewrite forallb_app, Hq, Hq'. reflexivity.
Qed.

Lemma quiet_try {A} (m : M A) (handler : Z -> string -> M A) :
  quiet m -> (forall status body, quiet (handler status body)) ->
  quiet (try_except_api m handler).
Proof.
  intros Hm Hh s Hc. unfold try_except_api.
  destruct (Hm s Hc) as [Hc' [l [Hl Hq]]].
  destruct (m s) as [[a | r | msg e | e] s']; simpl in *;
    try (split; [exact Hc' | exists l; auto]).
  destruct e; try (split; [exact Hc' | exists l; auto]).
  destruct (Hh status body s' Hc') as [Hc'' [l' [Hl' Hq']]].
  split; [exact Hc''|]. exists (l ++ l'). split.
  - rewrite Hl', Hl, app_assoc. reflexivity.
  - rewrite forallb_app, Hq, Hq'. reflexivity.
Qed.

Lemma quiet_api (resource : endpoint) (c : call) :
  mutating c = false -> quiet (api resource c).
Proof.
  intros Hm s Hc. unfold api.
  destruct (respond resource (log s) c); simpl;
    (split; [exact Hc | exists [c]; simpl; rewrite Hm; auto]).
Qed.

(** Under check mode the flag reads true. *)
Lemma quiet_check {A} (f : bool -> M A) :
  quiet (f true) -> quiet (bind get_check_mode f).
Proof.
  intros Hf s Hc. unfold bind, get_check_mode. rewrite Hc. apply Hf, Hc.
Qed.

Create HintDb quiet.

#[local] Hint Resolve quiet_bind quiet_try quiet_api quiet_check : quiet.

Ltac quiet_pure := apply quiet_pure; intros ?; split; reflexivity.

Lemma quiet_ret {A} (a : A) : quiet (ret a).
Proof. quiet_pure. Qed.

Lemma quiet_raise {A} (e : exn) : quiet (@raise A e).
Proof. quiet_pure. Qed.

Lemma quiet_exit_json {A} (r : return_attributes) : quiet (@exit_json A r).
Proof. quiet_pure. Qed.

Lemma quiet_fail_json {A} (msg : message) (error : option Z) :
  quiet (@fail_json A msg error).
Proof. quiet_pure. Qed.

Lemma quiet_params_pop_default (k : string) (v : value) :
  quiet (params_pop_default k v).
Proof. quiet_pure. Qed.

Lemma quiet_params_get (k : string) : quiet (params_get k).
Proof. quiet_pure. Qed.

Lemma quiet_remove_aliases (aliases : list string) : quiet (remove_aliases aliases).
Proof. quiet_pure. Qed.

Lemma quiet_getitem (d : dict) (k : string) : quiet (getitem d k).
Proof. unfold getitem. destruct (lookup k d); quiet_pure. Qed.

Lemma quiet_value_get (v : value) (k : string) : quiet (value_get v k).
Proof. destruct v; quiet_pure. Qed.

Lemma quiet_value_endswith (v : value) (suffix : string) :
  quiet (value_endswith v suffix).
Proof. destruct v; quiet_pure. Qed.

Lemma quiet_read_local {A} (x : string) (binding : option A) :
  quiet (read_local x binding).
Proof. destruct binding; quiet_pure. Qed.

Lemma quiet_or_params (head : value) (k : string) : quiet (or_params head k).
Proof. unfold or_params. destruct (truthy head); quiet_pure. Qed.

#[local] Hint Resolve quiet_ret quiet_raise quiet_exit_json quiet_fail_json
  quiet_params_pop_default quiet_params_get quiet_remove_aliases quiet_getitem
  quiet_value_get quiet_value_endswith quiet_read_local quiet_or_params : quiet.

Ltac quiet_step :=
  match goal with
  | |- quiet (bind get_check_mode _) => apply quiet_check; cbn [negb]
  | |- quiet (bind _ _) => apply quiet_bind; [|intros ?]
  | |- quiet (try_except_api _ _) => apply quiet_try; [|intros ? ?]
  | |- quiet (api _ _) => apply quiet_api; reflexivity
  | |- quiet (if ?b then _ else _) => destruct b
  | |- quiet (match ?x with Some _ => _ | None => _ end) => destruct x
  | |- quiet _ => solve [auto with quiet]
  end.

(** Under check mode, [perform_action] adds no create, replace, update or
    delete to the log, on any path. *)
Lemma perform_action_check_mode_quiet
    (aliases : list string) (resource : endpoint) (definition : dict) :
  quiet (perform_action aliases resource definition).
Proof.
  unfold perform_action, list_kind, fetch_existing, state_absent, state_present,
    create_object, replace_object, update_object.
  repeat quiet_step.
Qed.

(** C1, where the code departs from it.  For the ConfigMap of the
    scenarios, present in the cluster with an older value, the run with
    check mode off ends in [exit_json] with [changed] true, after a replace
    when [force] is set and after an update when it is not; the same run
    under check mode makes no mutating call but ends in
    [UnboundLocalError], so it reports no [changed] value at all. *)
Theorem check_mode_loses_changed_verdict (force : bool) :
  let resource := Scenario.core_v1 Scenario.holding in
  let real :=
    perform_action [] resource Scenario.config_map
                   (Scenario.module "present" force false) in
  let checked :=
    perform_action [] resource Scenario.config_map
                   (Scenario.module "present" force true) in
  fst real = ExitJson {| changed := true; result := VDict Scenario.config_map |} /\
  existsb mutating (log (snd real)) = true /\
  fst checked = Raised (UnboundLocalError "k8s_obj") /\
  existsb mutating (log (snd checked)) = false.
Proof. destruct force; repeat split; reflexivity. Qed.

(** The two branches that do keep the verdict under check mode: the delete
    and the create report [changed] true with and without check mode. *)
Lemma check_mode_keeps_changed_on_delete_and_create (check : bool) :
  (exists r,
     fst (perform_action [] (Scenario.core_v1 Scenario.holding)
            Scenario.config_map (Scenario.module "absent" false check)) =
     ExitJson r /\ changed r = true) /\
  (exists r,
     fst (perform_action [] (Scenario.core_v1 Scenario.empty)
            Scenario.config_map (Scenario.module "present" false check)) =
     ExitJson r /\ changed r = true).
Proof. destruct check; split; eexists; split; reflexivity. Qed.

(** ** The list short-circuit *)

(** C3, where the code departs from it.  The suffix tested is lower-case
    ["list"].  The kind ["ConfigMapList"] ends in ["List"], yet its run
    makes no list call: it gets, finds nothing and creates, and reports
    [changed] true.  The kind ["Checklist"] does not end in ["List"], yet
    its run is the list call alone with [changed] false. *)
Theorem list_suffix_is_lower_case :
  let run d := perform_action [] ListScenario.resource d
                 (new_instance ListScenario.bag false) in
  endswith "ConfigMapList" "List" = true /\
  log (snd (run ListScenario.config_map_list)) =
    [CGet (VStr "a") (VStr "ns");
     CCreate ListScenario.config_map_list (VStr "ns")] /\
  fst (run ListScenario.config_map_list) =
    ExitJson {| changed := true; result := VDict Scenario.config_map |} /\
  endswith "Checklist" "List" = false /\
  log (snd (run ListScenario.lower_case)) = [CList (VStr "ns")] /\
  fst (run ListScenario.lower_case) =
    ExitJson {| changed := false;
                result := VDict (to_dict ListScenario.listing) |}.
Proof. repeat split; reflexivity. Qed.

(** What the code does: the short-circuit is taken exactly for the kinds
    that end in lower-case ["list"], and then the run is the list call in
    the namespace parameter, with [changed] false and the listing as
    result when the call succeeds. *)
Lemma list_kind_short_circuit
    (aliases : list string) (resource : endpoint) (definition md : dict)
    (k : string) (s : instance) (listing : k8s_object) :
  get_default definition "metadata" (VDict []) = VDict md ->
  lookup "kind" definition = Some (VStr k) ->
  endswith k "list" = true ->
  let namespace := get (params (prepared aliases s)) "namespace" in
  respond resource (log s) (CList namespace) = Object listing ->
  perform_action aliases resource definition s =
  (ExitJson {| changed := false; result := VDict (to_dict listing) |},
   logged (CList namespace) (prepared aliases s)).
Proof.
  intros Hmd Hk He namespace Hl.
  rewrite (perform_action_prelude aliases resource definition md s Hmd).
  unfold bind at 1. rewrite (list_kind_taken resource definition k _ _ Hk He).
  change (log (prepared aliases s)) with (log s).
  fold namespace. rewrite Hl. reflexivity.
Qed.

(** ** Failures of the calls after the fetch *)

(** C6, where the code departs from it.  With check mode off, no existing
    object and a [state] other than ['absent'], an [ApiException] raised by
    the create is not caught: it leaves [perform_action] as an exception,
    and no [fail_json] report with a message is made. *)
Theorem create_failure_is_not_reported
    (aliases : list string) (resource : endpoint) (definition md : dict)
    (k : string) (s : instance) (body404 : string) (status : Z) (body : string) :
  check_mode s = false ->
  get_default definition "metadata" (VDict []) = VDict md ->
  lookup "kind" definition = Some (VStr k) ->
  endswith k "list" = false ->
  respond resource (log s) (CGet (name_of md s) (namespace_of md s)) =
    ApiError 404 body404 ->
  Py.eqb (param_state s) (VStr "absent") = false ->
  respond resource (log s ++ [CGet (name_of md s) (namespace_of md s)])
          (CCreate definition (namespace_of md s)) = ApiError status body ->
  perform_action aliases resource definition s =
  (Raised (ApiException status body),
   logged (CCreate definition (namespace_of md s))
     (logged (CGet (name_of md s) (namespace_of md s)) (prepared aliases s))).
Proof.
  intros Hc Hmd Hk He Hg Hs Hcr.
  rewrite (perform_action_fetch_failed aliases resource definition md k s
             Hmd Hk He 404 body404 Hg), Hs.
  cbn [Z.eqb Pos.eqb]. rewrite create_object_eq.
  cbn [check_mode log logged with_log prepared with_params].
  rewrite Hc, Hcr. reflexivity.
Qed.

Lemma create_failure_is_not_reported_witness :
  perform_action [] (Scenario.core_v1 Scenario.empty_refusing)
    Scenario.config_map (Scenario.module "present" false false) =
  (Raised (ApiException 403 "forbidden"),
   logged (CCreate Scenario.config_map (VStr "ns"))
     (logged (CGet (VStr "a") (VStr "ns"))
        (prepared [] (Scenario.module "present" false false)))).
Proof.
  exact (create_failure_is_not_reported
           [] (Scenario.core_v1 Scenario.empty_refusing) Scenario.config_map
           Scenario.metadata "ConfigMap"
           (Scenario.module "present" false false) "not found" 403 "forbidden"
           eq_refl eq_refl eq_refl eq_refl eq_refl eq_refl eq_refl).
Defined.

(** The list call is not guarded either. *)
Lemma list_failure_is_not_reported
    (aliases : list string) (resource : endpoint) (definition md : dict)
    (k : string) (s : instance) (status : Z) (body : string) :
  get_default definition "metadata" (VDict []) = VDict md ->
  lookup "kind" definition = Some (VStr k) ->
  endswith k "list" = true ->
  let namespace := get (params (prepared aliases s)) "namespace" in
  respond resource (log s) (CList namespace) = ApiError status body ->
  perform_action aliases resource definition s =
  (Raised (ApiException status body),
   logged (CList namespace) (prepared aliases s)).
Proof.
  intros Hmd Hk He namespace Hl.
  rewrite (perform_action_prelude aliases resource definition md s Hmd).
  unfold bind at 1. rewrite (list_kind_taken resource definition k _ _ Hk He).
  change (log (prepared aliases s)) with (log s).
  fold namespace. rewrite Hl. reflexivity.
Qed.

(** The guarded calls: a refused delete or replace is reported with body
    and status, a refused update with the body only. *)
Lemma guarded_failures_are_reported :
  let run state force :=
    fst (perform_action [] (Scenario.core_v1 Scenario.refusing)
           Scenario.config_map (Scenario.module state force false)) in
  run "absent" false =
    FailJson (Text "Failed to delete object: conflict") (Some 409%Z) /\
  run "present" true =
    FailJson (Text "Failed to replace object: conflict") (Some 409%Z) /\
  run "present" false =
    FailJson (Text "Failed to patch object: conflict") None.
Proof. repeat split; reflexivity. Qed.

(** ** Resolution of the endpoint *)

Lemma eqb_str (a : string) (v : value) : Py.eqb (VStr a) v = true <-> v = VStr a.
Proof.
  destruct v; simpl; split; try congruence.
  - intros H. apply String.eqb_eq in H. congruence.
  - intros H. inversion H. apply String.eqb_refl.
Qed.

(** The predicate itself: it holds of an endpoint exactly when the kind of
    the endpoint is the definition's [kind] and its group and version,
    joined by a slash, are the definition's [apiVersion]; an endpoint of
    the core API, whose group is empty, has the joined form ["/version"]. *)
Lemma exact_match_iff (definition : dict) (resource : endpoint) :
  exact_match definition resource = true <->
  get definition "kind" = VStr (kind resource) /\
  get definition "apiVersion" =
    VStr (group resource ++ "/" ++ apiversion resource)%string.
Proof.
  unfold exact_match, join2. cbn [forallb].
  rewrite andb_true_r, andb_true_iff, !eqb_str. reflexivity.
Qed.

Lemma exact_match_core_group (definition : dict) (resource : endpoint) :
  group resource = "" ->
  (exact_match definition resource = true <->
   get definition "kind" = VStr (kind resource) /\
   get definition "apiVersion" = VStr ("/" ++ apiversion resource)%string).
Proof. intros Hg. rewrite exact_match_iff, Hg. reflexivity. Qed.

(** The search returns the first endpoint of the registry the predicate
    holds of. *)
Lemma search_resources_first (registry : list endpoint)
    (predicate : endpoint -> bool) (s : instance) (r : endpoint) :
  fst (search_resources registry predicate s) = Returned r ->
  predicate r = true /\
  exists before after,
    registry = before ++ r :: after /\
    forallb (fun x => negb (predicate x)) before = true.
Proof.
  unfold search_resources.
  induction registry as [|x xs IH]; simpl.
  - discriminate.
  - destruct (predicate x) eqn:E; simpl.
    + intros H. inversion H; subst. split; [exact E|].
      exists [], xs. auto.
    + intros H. destruct (IH H) as [Hp [before [after [-> Hb]]]].
      split; [exact Hp|]. exists (x :: before), after.
      simpl. rewrite E, Hb. auto.
Qed.

(** Through the instance, [exact_match] is called with one argument too
    many, so the first turn of the loop raises before any search. *)
Lemma execute_module_first_turn
    (aliases : list string) (registry : list endpoint) (s : instance)
    (d : dict) (rest : list dict) :
  resource_definitions s = Some (d :: rest) ->
  execute_module aliases registry s = (Raised (TypeError "exact_match"), s).
Proof.
  intros H. unfold execute_module, bind at 1, get_resource_definitions.
  rewrite H. reflexivity.
Qed.

(** C2, where the code departs from it.  [exact_match] declares the single
    parameter [definition], and [execute_module] calls it through the
    instance, which passes the instance as well: for every instance with
    at least one definition the resolution raises [TypeError], no endpoint
    is selected and nothing else happens. *)
Theorem resolution_raises_type_error
    (aliases : list string) (registry : list endpoint) (s : instance)
    (d : dict) (rest : list dict) :
  resource_definitions s = Some (d :: rest) ->
  execute_module aliases registry s = (Raised (TypeError "exact_match"), s).
Proof. apply execute_module_first_turn. Qed.

Lemma resolution_raises_type_error_witness :
  let resource := Scenario.core_v1 Scenario.holding in
  let s := snd (set_resource_definitions [Scenario.config_map]
                  (Scenario.module "present" false false)) in
  execute_module [] [resource] s = (Raised (TypeError "exact_match"), s).
Proof.
  exact (resolution_raises_type_error
           [] [Scenario.core_v1 Scenario.holding]
           (snd (set_resource_definitions [Scenario.config_map]
                   (Scenario.module "present" false false)))
           Scenario.config_map [] eq_refl).
Defined.

(** ** Termination of a run *)


Lemma never_returns_exit_json {A} (r : return_attributes) :
  never_returns (@exit_json A r).
Proof. intros s a. discriminate. Qed.


Section NeverReturns.

Variable resource : endpoint.




End NeverReturns.









(** ** The constructor *)

Lemma params_pop_found (k : string) (v : value) (s : instance) :
  lookup k (params s) = Some v ->
  params_pop k s = (Returned v, with_params (remove k (params s)) s).
Proof. intros H. unfold params_pop. rewrite H. reflexivity. Qed.

Lemma bind_returned {A B} (m : M A) (f : A -> M B) (s s' : instance) (a : A) :
  m s = (Returned a, s') -> bind m f s = f a s'.
Proof. intros H. unfold bind. rewrite H. reflexivity. Qed.

Section Constructor.

Variable load_resource_definitions : value -> list dict.
Variables (module_params : dict) (check : bool).
Variables (kind_param api_version_param src_param : value).
Variable inline : dict.

Hypothesis has_kind : lookup "kind" module_params = Some kind_param.
Hypothesis has_api_version :
  lookup "api_version" module_params = Some api_version_param.
Hypothesis has_definition :
  lookup "resource_definition" module_params = Some (VDict inline).
Hypothesis has_src : lookup "src" module_params = Some src_param.

Lemma init_pops :
  __init__ load_resource_definitions (new_instance module_params check) =
  checks inline
    (popped load_resource_definitions module_params check kind_param
            api_version_param src_param inline).
Proof.
  unfold __init__.
  erewrite bind_returned by (apply params_pop_found; exact has_kind).
  unfold bind at 1. cbn [set_kind new_instance with_params params check_mode
    self_kind self_api_version self_resource_definition self_src
    resource_definitions log].
  erewrite bind_returned; cycle 1.
  { apply params_pop_found. cbn [params].
    rewrite lookup_remove. exact has_api_version. }
  unfold bind at 1. cbn [set_api_version with_params params check_mode
    self_kind self_api_version self_resource_definition self_src
    resource_definitions log].
  erewrite bind_returned; cycle 1.
  { apply params_pop_found. cbn [params].
    rewrite !lookup_remove. exact has_definition. }
  unfold bind at 1. cbn [set_resource_definition with_params params check_mode
    self_kind self_api_version self_resource_definition self_src
    resource_definitions log].
  erewrite bind_returned; cycle 1.
  { apply params_pop_found. cbn [params].
    rewrite !lookup_remove. exact has_src. }
  unfold bind at 1. cbn [set_src with_params params check_mode
    self_kind self_api_version self_resource_definition self_src
    resource_definitions log].
  unfold bind at 1. unfold checks, popped.
  destruct (truthy src_param); reflexivity.
Qed.

End Constructor.

Ltac fields :=
  cbn [params check_mode self_kind self_api_version self_resource_definition
       self_src resource_definitions log fst snd negb] in *.

(** C7.  When the inline definition is a non-empty mapping, the instance's
    [api_version] and [kind] are the definition's [apiVersion] and [kind],
    whatever the separate parameters hold (an empty definition leaves the
    parameters in place).  If the resulting [api_version] is empty the
    constructor ends in [fail_json] with the message that names
    [api_version]; otherwise, if the resulting [kind] is empty, it ends in
    [fail_json] with the message that names [kind]; in both cases the run
    of the module is that failure and its log of cluster calls is empty.
    Otherwise the constructor returns with the definition as the only one
    to process. *)
Theorem inline_definition_fields_take_precedence
    (load_resource_definitions : value -> list dict)
    (aliases : list string) (registry : list endpoint)
    (module_params : dict) (check : bool)
    (kind_param api_version_param src_param : value) (inline : dict) :
  lookup "kind" module_params = Some kind_param ->
  lookup "api_version" module_params = Some api_version_param ->
  lookup "resource_definition" module_params = Some (VDict inline) ->
  lookup "src" module_params = Some src_param ->
  let api_version :=
    if truthy (VDict inline) then get inline "apiVersion" else api_version_param in
  let kind :=
    if truthy (VDict inline) then get inline "kind" else kind_param in
  let built := __init__ load_resource_definitions (new_instance module_params check) in
  let ran := run load_resource_definitions aliases registry module_params check in
  self_api_version (snd built) = api_version /\
  self_kind (snd built) = kind /\
  log (snd built) = [] /\
  (truthy api_version = false ->
   fst built = FailJson no_api_version None /\ ran = built) /\
  (truthy api_version = true -> truthy kind = false ->
   fst built = FailJson no_kind None /\ ran = built) /\
  (truthy api_version = true -> truthy kind = true ->
   fst built = Returned tt /\ resource_definitions (snd built) = Some [inline]) /\
  mentions "api_version" no_api_version = true /\
  mentions "kind" no_api_version = false /\
  mentions "kind" no_kind = true /\
  mentions "api_version" no_kind = false.
Proof.
  intros Hk Hv Hd Hs api_version kind built ran.
  assert (Hran : forall msg e, fst built = FailJson msg e -> ran = built).
  { intros msg e H. subst ran. unfold run, bind. fold built.
    destruct built as [o s']. simpl in H. subst o. reflexivity. }
  assert (Hb : built =
               checks inline
                 (popped load_resource_definitions module_params check
                    kind_param api_version_param src_param inline)).
  { apply init_pops; assumption. }
  clearbody built ran. subst built. subst api_version kind.
  unfold checks, bind, popped, set_api_version, set_kind, get_api_version,
    get_kind, set_resource_definitions, fail_json, ret in *.
  destruct (truthy (VDict inline)); fields.
  - destruct (truthy (get inline "apiVersion")) eqn:Ea; fields;
      [destruct (truthy (get inline "kind")) eqn:Ek; fields|];
      repeat split;
      try solve [intros; discriminate | reflexivity
                | intros; eapply Hran; reflexivity].
  - destruct (truthy api_version_param) eqn:Ea; fields;
      [destruct (truthy kind_param) eqn:Ek; fields|];
      repeat split;
      try solve [intros; discriminate | reflexivity
                | intros; eapply Hran; reflexivity].
Qed.

Lemma inline_definition_fields_take_precedence_witness :
  let inline := [("metadata", VDict [("name", VStr "a")])] in
  let module_params :=
    [("kind", VStr "Pod"); ("api_version", VStr "v1");
     ("resource_definition", VDict inline); ("src", VNone)] in
  let built := __init__ (fun _ => []) (new_instance module_params false) in
  fst built = FailJson no_api_version None /\
  self_kind (snd built) = VNone /\
  log (snd (run (fun _ => []) [] [] module_params false)) = [].
Proof.
  destruct (inline_definition_fields_take_precedence
              (fun _ => []) [] []
              [("kind", VStr "Pod"); ("api_version", VStr "v1");
               ("resource_definition",
                VDict [("metadata", VDict [("name", VStr "a")])]);
               ("src", VNone)]
              false (VStr "Pod") (VStr "v1") VNone
              [("metadata", VDict [("name", VStr "a")])]
              eq_refl eq_refl eq_refl eq_refl)
    as (_ & Hkind & Hlog & Hfail & _).
  destruct (Hfail eq_refl) as [Hout Hran].
  split; [exact Hout|]. split; [exact Hkind|].
  rewrite Hran. exact Hlog.
Defined.

(** * Further properties of the module *)

(** ** The branches of [perform_action] on an existing or missing object *)



(** Any other [state], nothing found (lines 131-136).  Whatever [force]
    is, with check mode off the call after the get is one create of the
    definition in the namespace, and when it succeeds the run leaves
    through [exit_json] with [changed] true and the created object as
    result.  Under check mode the get is the only call and the report is
    [changed] true with the empty result. *)
Theorem present_creates_missing
    (aliases : list string) (resource : endpoint) (definition md : dict)
    (k : string) (s : instance) (body404 : string) :
  get_default definition "metadata" (VDict []) = VDict md ->
  lookup "kind" definition = Some (VStr k) ->
  endswith k "list" = false ->
  respond resource (log s) (CGet (name_of md s) (namespace_of md s)) =
    ApiError 404 body404 ->
  Py.eqb (param_state s) (VStr "absent") = false ->
  let fetched :=
    logged (CGet (name_of md s) (namespace_of md s)) (prepared aliases s) in
  let create := CCreate definition (namespace_of md s) in
  (check_mode s = true ->
   perform_action aliases resource definition s =
   (ExitJson {| changed := true; result := VDict [] |}, fetched)) /\
  (forall created,
     check_mode s = false ->
     respond resource (log s ++ [CGet (name_of md s) (namespace_of md s)])
             create = Object created ->
     perform_action aliases resource definition s =
     (ExitJson {| changed := true; result := VDict (to_dict created) |},
      logged create fetched)).
Proof.
  intros Hmd Hk He Hg Hs fetched create.
  rewrite (perform_action_fetch_failed aliases resource definition md k s
             Hmd Hk He 404 body404 Hg), Hs.
  cbn [Z.eqb Pos.eqb]. rewrite create_object_eq.
  cbn [check_mode log logged with_log prepared with_params].
  split.
  - intros Hc. rewrite Hc. reflexivity.
  - intros created Hc Hcr. fold create. rewrite Hc, Hcr. reflexivity.
Qed.

Lemma present_creates_missing_witness :
  let run check :=
    perform_action [] (Scenario.core_v1 Scenario.empty) Scenario.config_map
                   (Scenario.module "present" true check) in
  let fetched check :=
    logged (CGet (VStr "a") (VStr "ns"))
           (prepared [] (Scenario.module "present" true check)) in
  run true = (ExitJson {| changed := true; result := VDict [] |}, fetched true) /\
  run false =
    (ExitJson {| changed := true; result := VDict Scenario.config_map |},
     logged (CCreate Scenario.config_map (VStr "ns")) (fetched false)).
Proof.
  split.
  - exact (proj1 (present_creates_missing
             [] (Scenario.core_v1 Scenario.empty) Scenario.config_map
             Scenario.metadata "ConfigMap" (Scenario.module "present" true true)
             "not found" eq_refl eq_refl eq_refl eq_refl eq_refl) eq_refl).
  - exact (proj2 (present_creates_missing
             [] (Scenario.core_v1 Scenario.empty) Scenario.config_map
             Scenario.metadata "ConfigMap" (Scenario.module "present" true false)
             "not found" eq_refl eq_refl eq_refl eq_refl eq_refl)
             Scenario.stored eq_refl eq_refl).
Defined.

(** Object present, [force] unset, comparison empty (lines 149-158).  With
    or without check mode the get is the only call, and the run leaves
    through [exit_json] with [changed] false and the existing object as
    result. *)
Theorem matching_object_is_left_alone
    (aliases : list string) (resource : endpoint) (definition md : dict)
    (k : string) (s : instance) (e : k8s_object) :
  get_default definition "metadata" (VDict []) = VDict md ->
  lookup "kind" definition = Some (VStr k) ->
  endswith k "list" = false ->
  respond resource (log s) (CGet (name_of md s) (namespace_of md s)) = Object e ->
  Py.eqb (param_state s) (VStr "absent") = false ->
  truthy (param_force s) = false ->
  matches definition (to_dict e) = true ->
  perform_action aliases resource definition s =
  (ExitJson {| changed := false; result := VDict (to_dict e) |},
   logged (CGet (name_of md s) (namespace_of md s)) (prepared aliases s)).
Proof.
  intros Hmd Hk He Hg Hs Hf Hm.
  rewrite (perform_action_fetched aliases resource definition md k s
             Hmd Hk He e Hg), Hs, Hf.
  rewrite update_object_eq, Hm. reflexivity.
Qed.

Lemma matching_object_is_left_alone_witness :
  let cluster : list call -> call -> answer :=
    fun _ _ => Object Scenario.stored in
  let run check :=
    perform_action [] (Scenario.core_v1 cluster) Scenario.config_map
                   (Scenario.module "present" false check) in
  let unchanged check :=
    (@ExitJson unit {| changed := false; result := VDict Scenario.config_map |},
     logged (CGet (VStr "a") (VStr "ns"))
            (prepared [] (Scenario.module "present" false check))) in
  run true = unchanged true /\ run false = unchanged false.
Proof.
  split.
  - exact (matching_object_is_left_alone
             [] (Scenario.core_v1 (fun _ _ => Object Scenario.stored))
             Scenario.config_map Scenario.metadata "ConfigMap"
             (Scenario.module "present" false true) Scenario.stored
             eq_refl eq_refl eq_refl eq_refl eq_refl eq_refl eq_refl).
  - exact (matching_object_is_left_alone
             [] (Scenario.core_v1 (fun _ _ => Object Scenario.stored))
             Scenario.config_map Scenario.metadata "ConfigMap"
             (Scenario.module "present" false false) Scenario.stored
             eq_refl eq_refl eq_refl eq_refl eq_refl eq_refl eq_refl).
Defined.

(** Object present, [force] unset, comparison not empty, check mode off
    (lines 159-167).  The call after the get is one update of the
    definition; when it succeeds the run leaves through [exit_json] with
    [changed] true and the updated object as result, and when it is
    refused through [fail_json] with the body in the message and no
    [error] field. *)
Theorem difference_updates
    (aliases : list string) (resource : endpoint) (definition md : dict)
    (k : string) (s : instance) (e : k8s_object) :
  check_mode s = false ->
  get_default definition "metadata" (VDict []) = VDict md ->
  lookup "kind" definition = Some (VStr k) ->
  endswith k "list" = false ->
  respond resource (log s) (CGet (name_of md s) (namespace_of md s)) = Object e ->
  Py.eqb (param_state s) (VStr "absent") = false ->
  truthy (param_force s) = false ->
  matches definition (to_dict e) = false ->
  let fetched :=
    logged (CGet (name_of md s) (namespace_of md s)) (prepared aliases s) in
  let update := CUpdate definition (name_of md s) (namespace_of md s) in
  perform_action aliases resource definition s =
  match respond resource (log s ++ [CGet (name_of md s) (namespace_of md s)])
                update with
  | Object obj =>
      (ExitJson {| changed := true; result := VDict (to_dict obj) |},
       logged update fetched)
  | ApiError status body =>
      (FailJson (Text ("Failed to patch object: " ++ body)%string) None,
       logged update fetched)
  end.
Proof.
  intros Hc Hmd Hk He Hg Hs Hf Hm fetched update.
  rewrite (perform_action_fetched aliases resource definition md k s
             Hmd Hk He e Hg), Hs, Hf.
  rewrite update_object_eq, Hm.
  cbn [check_mode log logged with_log prepared with_params]. rewrite Hc.
  reflexivity.
Qed.

Lemma difference_updates_witness :
  let run cluster :=
    perform_action [] (Scenario.core_v1 cluster) Scenario.config_map
                   (Scenario.module "present" false false) in
  let updated :=
    logged (CUpdate Scenario.config_map (VStr "a") (VStr "ns"))
      (logged (CGet (VStr "a") (VStr "ns"))
         (prepared [] (Scenario.module "present" false false))) in
  run Scenario.holding =
    (ExitJson {| changed := true; result := VDict Scenario.config_map |},
     updated) /\
  run Scenario.refusing =
    (FailJson (Text "Failed to patch object: conflict") None, updated).
Proof.
  split.
  - exact (difference_updates
             [] (Scenario.core_v1 Scenario.holding) Scenario.config_map
             Scenario.metadata "ConfigMap"
             (Scenario.module "present" false false) Scenario.stale
             eq_refl eq_refl eq_refl eq_refl eq_refl eq_refl eq_refl eq_refl).
  - exact (difference_updates
             [] (Scenario.core_v1 Scenario.refusing) Scenario.config_map
             Scenario.metadata "ConfigMap"
             (Scenario.module "present" false false) Scenario.stale
             eq_refl eq_refl eq_refl eq_refl eq_refl eq_refl eq_refl eq_refl).
Defined.

(** ** A second run on an unchanged object *)

Lemma well_formed_dict (d : dict) :
  well_formed (VDict d) = true ->
  distinct (keys d) = true /\ Forall (fun kv => well_formed (snd kv) = true) d.
Proof.
  cbn [well_formed]. intros H. apply andb_true_iff in H as [Hd He].
  split; [exact Hd|]. clear Hd.
  induction d as [|kv d IH]; constructor.
  - apply andb_true_iff in He as [H _]. exact H.
  - apply IH. apply andb_true_iff in He as [_ H]. exact H.
Qed.

Lemma well_formed_list (l : list value) :
  well_formed (VList l) = true -> Forall (fun x => well_formed x = true) l.
Proof.
  cbn [well_formed]. intros H.
  induction l as [|x l IH]; constructor.
  - apply andb_true_iff in H as [H _]. exact H.
  - apply IH. apply andb_true_iff in H as [_ H]. exact H.
Qed.

(** A value has an empty diff with itself. *)
Lemma diff_at_same (v : value) :
  well_formed v = true -> forall node, diff_at node v v = [].
Proof.
  induction v as [| b | n | s | l IH | d IH] using value_nested_ind;
    intros Hwf node.
  - reflexivity.
  - simpl. rewrite Bool.eqb_reflx. reflexivity.
  - simpl. rewrite Z.eqb_refl. reflexivity.
  - simpl. rewrite String.eqb_refl. reflexivity.
  - rewrite diff_at_list. cbv zeta.
    rewrite Nat.min_id, skipn_all. simpl.
    apply well_formed_list in Hwf. generalize 0%nat.
    induction IH as [|x xs Hx _ IHxs]; intros i; simpl; [reflexivity|].
    inversion Hwf as [|? ? Hwx Hwxs]; subst.
    rewrite (Hx Hwx), (IHxs Hwxs). reflexivity.
  - rewrite diff_at_dict.
    apply well_formed_dict in Hwf as [Hd Hwf]. apply distinct_NoDup in Hd.
    assert (Hmem : forall kv, In kv d -> negb (mem (fst kv) d) = false).
    { intros [k v] Hin. simpl.
      apply in_lookup, lookup_in_keys, mem_in_keys in Hin.
      rewrite Hin. reflexivity. }
    unfold addition, deletion. rewrite (filter_nil _ _ Hmem). simpl.
    apply shared_diffs_empty. intros k v w Hin Hl.
    apply (lookup_entry d k v Hd) in Hin as Hl'.
    rewrite Hl' in Hl. inversion Hl; subst w.
    rewrite Forall_forall in IH, Hwf.
    apply (IH (k, v) Hin), (Hwf (k, v) Hin).
Qed.

(** An existing object that holds, at every top-level key of the
    definition, exactly the value the definition has there, nested fields
    included, is a match.  The definition has distinct keys at every
    depth, as any parsed manifest. *)
Theorem agreeing_object_matches (D E : dict) :
  well_formed (VDict D) = true ->
  (forall k, In k (keys D) -> get E k = get D k) ->
  matches D E = true.
Proof.
  intros Hwf Hagree. apply matches_entries. intros k v Hin.
  apply well_formed_dict in Hwf as [Hd Hwf]. apply distinct_NoDup in Hd.
  assert (Hk : In k (keys D)).
  { change k with (fst (k, v)). apply in_map, Hin. }
  rewrite (Hagree k Hk). unfold get, get_default.
  apply (lookup_entry D k v Hd) in Hin as Hl. rewrite Hl.
  rewrite Forall_forall in Hwf. apply diff_at_same, (Hwf (k, v) Hin).
Qed.

Lemma agreeing_object_matches_witness :
  matches Scenario.config_map
          (Scenario.config_map ++ [("status", VStr "Active")]) = true.
Proof.
  apply (agreeing_object_matches Scenario.config_map
           (Scenario.config_map ++ [("status", VStr "Active")]) eq_refl).
  intros k [<-|[<-|[<-|[<-|[]]]]]; reflexivity.
Defined.

(** ** What a run may call *)

(** Under check mode no path of [perform_action] adds a create, replace,
    update or delete to the log, whatever the definition, the parameters
    and the answers of the cluster. *)
Theorem check_mode_never_mutates
    (aliases : list string) (resource : endpoint) (definition : dict)
    (s : instance) :
  check_mode s = true ->
  exists l,
    log (snd (perform_action aliases resource definition s)) = log s ++ l /\
    forallb (fun c => negb (mutating c)) l = true.
Proof.
  intros Hc.
  destruct (perform_action_check_mode_quiet aliases resource definition s Hc)
    as [_ H].
  exact H.
Qed.

Lemma check_mode_never_mutates_witness :
  exists l,
    log (snd (perform_action [] (Scenario.core_v1 Scenario.holding)
                Scenario.config_map (Scenario.module "absent" false true))) =
    [] ++ l /\
    forallb (fun c => negb (mutating c)) l = true.
Proof.
  exact (check_mode_never_mutates
           [] (Scenario.core_v1 Scenario.holding) Scenario.config_map
           (Scenario.module "absent" false true) eq_refl).
Defined.

Lemma list_kind_eq (resource : endpoint) (definition : dict)
    (ra : return_attributes) (s : instance) :
  list_kind resource definition ra s =
  match lookup "kind" definition with
  | None => (Raised (KeyError "kind"), s)
  | Some (VStr k) =>
      if endswith k "list" then
        match respond resource (log s) (CList (get (params s) "namespace")) with
        | Object obj =>
            (ExitJson (with_result (VDict (to_dict obj)) ra),
             logged (CList (get (params s) "namespace")) s)
        | ApiError status body =>
            (Raised (ApiException status body),
             logged (CList (get (params s) "namespace")) s)
        end
      else (Returned tt, s)
  | Some _ => (Raised (AttributeError "endswith"), s)
  end.
Proof.
  unfold list_kind, getitem, bind, value_endswith, ret, raise, params_get, api,
    exit_json, logged.
  destruct (lookup "kind" definition) as [[| | | k | |]|]; try reflexivity.
  cbv beta iota. destruct (endswith k "list"); [|reflexivity].
  destruct (respond resource (log s) _); reflexivity.
Qed.

Lemma perform_action_metadata_not_mapping
    (aliases : list string) (resource : endpoint) (definition : dict)
    (s : instance) :
  (forall md, get_default definition "metadata" (VDict []) <> VDict md) ->
  perform_action aliases resource definition s =
  (Raised (AttributeError "get"),
   with_params (remove "force" (remove "state" (params s))) s).
Proof.
  intros H. unfold perform_action, bind, params_pop_default, value_get, raise.
  destruct (get_default definition "metadata" (VDict [])) as [| | | | |md];
    try reflexivity.
  destruct (H md eq_refl).
Qed.

Ltac count_calls :=
  cbn [snd log logged with_log prepared with_params];
  first
    [ exists []; split; [symmetry; apply app_nil_r | exact I]
    | eexists [_]; split; [reflexivity | reflexivity]
    | eexists [_; _]; split;
      [rewrite <- app_assoc; reflexivity
      | repeat split; solve [reflexivity | assumption]] ].

(** On every input [perform_action] makes at most two calls, and never
    repeats one: nothing, or one read (a list or a get), or a get followed
    by one create, replace, update or delete, the latter with check mode
    off only. *)
Theorem perform_action_calls
    (aliases : list string) (resource : endpoint) (definition : dict)
    (s : instance) :
  exists l,
    log (snd (perform_action aliases resource definition s)) = log s ++ l /\
    match l with
    | [] => True
    | [c] => mutating c = false
    | [c; c'] => mutating c = false /\ mutating c' = true /\ check_mode s = false
    | _ => False
    end.
Proof.
  destruct (get_default definition "metadata" (VDict [])) as [| | | | |md] eqn:Hmd;
    try (rewrite perform_action_metadata_not_mapping
           by (intros md; rewrite Hmd; discriminate); count_calls).
  rewrite (perform_action_prelude aliases resource definition md s Hmd).
  unfold bind. rewrite list_kind_eq.
  destruct (lookup "kind" definition) as [[| | | k | |]|]; try count_calls.
  destruct (endswith k "list").
  { destruct (respond resource _ _); count_calls. }
  rewrite fetch_existing_eq.
  destruct (respond resource _ _) as [e|status body].
  - destruct (Py.eqb (param_state s) (VStr "absent")).
    + rewrite state_absent_eq.
      cbn [check_mode logged with_log prepared with_params].
      destruct (check_mode s) eqn:Hc; [count_calls|].
      destruct (respond resource _ _); count_calls.
    + unfold state_present. destruct (truthy (param_force s)).
      * rewrite replace_object_eq.
        cbn [check_mode logged with_log prepared with_params].
        destruct (check_mode s) eqn:Hc; [count_calls|].
        destruct (respond resource _ _); count_calls.
      * rewrite update_object_eq.
        cbn [check_mode logged with_log prepared with_params].
        destruct (matches definition (to_dict e)); [count_calls|].
        destruct (check_mode s) eqn:Hc; [count_calls|].
        destruct (respond resource _ _); count_calls.
  - destruct (Z.eqb status 404); [|count_calls].
    destruct (Py.eqb (param_state s) (VStr "absent")).
    + rewrite state_absent_eq. count_calls.
    + unfold state_present. rewrite create_object_eq.
      cbn [check_mode logged with_log prepared with_params].
      destruct (check_mode s) eqn:Hc; [count_calls|].
      destruct (respond resource _ _); count_calls.
Qed.

(** ** The kind and the metadata of the definition *)

(** For a definition whose metadata is a mapping or is missing, and whose
    kind is a string that ends in lower-case ["list"] (lines 104-107), the
    run is one list call, in the namespace of the parameter bag and not in
    the namespace of the definition's metadata; [state], [force] and check
    mode play no part.  A listing is reported with [changed] false, and an
    [ApiException] of the call escapes. *)
Theorem list_kind_lists_in_parameter_namespace
    (aliases : list string) (resource : endpoint) (definition md : dict)
    (k : string) (s : instance) :
  get_default definition "metadata" (VDict []) = VDict md ->
  lookup "kind" definition = Some (VStr k) ->
  endswith k "list" = true ->
  let namespace := get (params (prepared aliases s)) "namespace" in
  perform_action aliases resource definition s =
  match respond resource (log s) (CList namespace) with
  | Object listing =>
      (ExitJson {| changed := false; result := VDict (to_dict listing) |},
       logged (CList namespace) (prepared aliases s))
  | ApiError status body =>
      (Raised (ApiException status body),
       logged (CList namespace) (prepared aliases s))
  end.
Proof.
  intros Hmd Hk He namespace.
  rewrite (perform_action_prelude aliases resource definition md s Hmd).
  unfold bind at 1. rewrite list_kind_eq, Hk, He.
  change (log (prepared aliases s)) with (log s). fold namespace.
  destruct (respond resource (log s) (CList namespace)); reflexivity.
Qed.

Lemma list_kind_lists_in_parameter_namespace_witness :
  let s :=
    new_instance [("state", VStr "absent"); ("force", VBool true);
                  ("name", VNone); ("namespace", VStr "other")] true in
  perform_action [] ListScenario.resource ListScenario.lower_case s =
  (ExitJson {| changed := false;
               result := VDict (to_dict ListScenario.listing) |},
   logged (CList (VStr "other")) (prepared [] s)).
Proof.
  exact (list_kind_lists_in_parameter_namespace
           [] ListScenario.resource ListScenario.lower_case
           [("name", VStr "a"); ("namespace", VStr "ns")] "Checklist"
           (new_instance [("state", VStr "absent"); ("force", VBool true);
                          ("name", VNone); ("namespace", VStr "other")] true)
           eq_refl eq_refl eq_refl).
Defined.

(** A definition whose metadata is a mapping or is missing, and that has
    no [kind] key (line 104), makes [perform_action] raise [KeyError]
    before any call on the cluster: the [kind] parameter of the module is
    not consulted. *)
Theorem missing_kind_raises_key_error
    (aliases : list string) (resource : endpoint) (definition md : dict)
    (s : instance) :
  get_default definition "metadata" (VDict []) = VDict md ->
  lookup "kind" definition = None ->
  perform_action aliases resource definition s =
  (Raised (KeyError "kind"), prepared aliases s).
Proof.
  intros Hmd Hk.
  rewrite (perform_action_prelude aliases resource definition md s Hmd).
  unfold bind at 1. rewrite list_kind_eq, Hk. reflexivity.
Qed.

Lemma missing_kind_raises_key_error_witness :
  let s := new_instance [("kind", VStr "ConfigMap"); ("state", VStr "present")]
                        false in
  perform_action [] (Scenario.core_v1 Scenario.holding) [] s =
  (Raised (KeyError "kind"), prepared [] s) /\
  log (prepared [] s) = [].
Proof.
  split; [|reflexivity].
  exact (missing_kind_raises_key_error
           [] (Scenario.core_v1 Scenario.holding) [] []
           (new_instance [("kind", VStr "ConfigMap"); ("state", VStr "present")]
                         false)
           eq_refl eq_refl).
Defined.

(** A definition whose [metadata] is present but is not a mapping, a bare
    [metadata:] of a manifest for one, makes [perform_action] raise
    [AttributeError] on line 97, before the aliases are removed and before
    any call on the cluster; the default [{}] only stands in for a missing
    key. *)
Theorem metadata_must_be_a_mapping
    (aliases : list string) (resource : endpoint) (definition : dict)
    (s : instance) (v : value) :
  lookup "metadata" definition = Some v ->
  (forall md, v <> VDict md) ->
  perform_action aliases resource definition s =
  (Raised (AttributeError "get"),
   with_params (remove "force" (remove "state" (params s))) s).
Proof.
  intros Hl Hv. apply perform_action_metadata_not_mapping.
  intros md. unfold get_default. rewrite Hl. apply Hv.
Qed.

Lemma metadata_must_be_a_mapping_witness :
  let definition := [("kind", VStr "ConfigMap"); ("metadata", VNone)] in
  let s := Scenario.module "present" false false in
  perform_action [] (Scenario.core_v1 Scenario.holding) definition s =
  (Raised (AttributeError "get"),
   with_params [("name", VNone); ("namespace", VNone)] s).
Proof.
  apply (metadata_must_be_a_mapping
           [] (Scenario.core_v1 Scenario.holding)
           [("kind", VStr "ConfigMap"); ("metadata", VNone)]
           (Scenario.module "present" false false) VNone eq_refl).
  intros md. discriminate.
Defined.

(** ** The predicate of the resolution *)

Lemma contains_joined (needle a b : string) :
  contains needle (a ++ needle ++ b)%string = true.
Proof.
  induction a as [|c a IH]; simpl.
  - assert (H : String.prefix needle (needle ++ b)%string = true).
    { clear. induction needle as [|c n IH]; simpl.
      - destruct b; reflexivity.
      - destruct (ascii_dec c c) as [_|Hc]; [exact IH | congruence]. }
    destruct (needle ++ b)%string eqn:E; cbn [contains]; rewrite H; reflexivity.
  - rewrite IH. apply orb_true_r.
Qed.

(** An endpoint can satisfy [exact_match] only for a definition whose
    [apiVersion] is a string with a slash in it.  A definition of the core
    API written with the bare version, [apiVersion: v1], therefore matches
    no endpoint, not even the core one with the same kind and version. *)
Theorem exact_match_needs_a_slash (definition : dict) (resource : endpoint)
    (version : string) :
  get definition "apiVersion" = VStr version ->
  contains "/" version = false ->
  exact_match definition resource = false.
Proof.
  intros Hv Hc. destruct (exact_match definition resource) eqn:E; [|reflexivity].
  apply exact_match_iff in E as [_ E]. rewrite Hv in E.
  injection E as E. rewrite E in Hc.
  pose proof (contains_joined "/" (group resource) (apiversion resource)) as H.
  pose proof (eq_trans (eq_sym H) Hc) as X. discriminate X.
Qed.

Lemma exact_match_needs_a_slash_witness :
  exact_match Scenario.config_map (Scenario.core_v1 Scenario.holding) = false.
Proof.
  exact (exact_match_needs_a_slash
           Scenario.config_map (Scenario.core_v1 Scenario.holding) "v1"
           eq_refl eq_refl).
Defined.

(** The predicate compares with [definition.get]: a definition that lacks
    [kind] or [apiVersion], or holds something other than a string there,
    matches no endpoint, and no error is raised for it. *)
Theorem exact_match_needs_both_strings (definition : dict) (resource : endpoint) :
  exact_match definition resource = true ->
  (exists k, lookup "kind" definition = Some (VStr k)) /\
  (exists v, lookup "apiVersion" definition = Some (VStr v)).
Proof.
  intros H. apply exact_match_iff in H as [Hk Hv].
  unfold get, get_default in Hk, Hv. split.
  - destruct (lookup "kind" definition) as [v|]; [|discriminate].
    subst v. eauto.
  - destruct (lookup "apiVersion" definition) as [v|]; [|discriminate].
    subst v. eauto.
Qed.

Lemma exact_match_needs_both_strings_witness :
  let definition := [("kind", VStr "ConfigMap"); ("apiVersion", VStr "/v1")] in
  (exists k, lookup "kind" definition = Some (VStr k)) /\
  (exists v, lookup "apiVersion" definition = Some (VStr v)).
Proof.
  exact (exact_match_needs_both_strings
           [("kind", VStr "ConfigMap"); ("apiVersion", VStr "/v1")]
           (Scenario.core_v1 Scenario.holding) eq_refl).
Defined.

(** ** The constructor without an inline definition *)

Section NoInline.

Variable load_resource_definitions : value -> list dict.
Variables (module_params : dict) (check : bool).
Variables (kind_param api_version_param definition_param src_param : value).

Hypothesis has_kind : lookup "kind" module_params = Some kind_param.
Hypothesis has_api_version :
  lookup "api_version" module_params = Some api_version_param.
Hypothesis has_definition :
  lookup "resource_definition" module_params = Some definition_param.
Hypothesis has_src : lookup "src" module_params = Some src_param.
Hypothesis not_inline : forall d, definition_param <> VDict d.

Lemma init_without_inline :
  __init__ load_resource_definitions (new_instance module_params check) =
  (Returned tt,
   {| params :=
        remove "src"
          (remove "resource_definition"
             (remove "api_version" (remove "kind" module_params)));
      check_mode := check;
      self_kind := kind_param;
      self_api_version := api_version_param;
      self_resource_definition := definition_param;
      self_src := src_param;
      resource_definitions :=
        if truthy src_param then Some (load_resource_definitions src_param)
        else None;
      log := [] |}).
Proof.
  unfold __init__.
  erewrite bind_returned by (apply params_pop_found; exact has_kind).
  unfold bind at 1. cbn [set_kind new_instance with_params params check_mode
    self_kind self_api_version self_resource_definition self_src
    resource_definitions log].
  erewrite bind_returned; cycle 1.
  { apply params_pop_found. cbn [params].
    rewrite lookup_remove. exact has_api_version. }
  unfold bind at 1. cbn [set_api_version with_params params check_mode
    self_kind self_api_version self_resource_definition self_src
    resource_definitions log].
  erewrite bind_returned; cycle 1.
  { apply params_pop_found. cbn [params].
    rewrite !lookup_remove. exact has_definition. }
  unfold bind at 1. cbn [set_resource_definition with_params params check_mode
    self_kind self_api_version self_resource_definition self_src
    resource_definitions log].
  erewrite bind_returned; cycle 1.
  { apply params_pop_found. cbn [params].
    rewrite !lookup_remove. exact has_src. }
  unfold bind at 1. cbn [set_src with_params params check_mode
    self_kind self_api_version self_resource_definition self_src
    resource_definitions log].
  unfold bind at 1.
  destruct definition_param as [| | | | |d];
    try (destruct (truthy src_param); reflexivity).
  destruct (not_inline d eq_refl).
Qed.

End NoInline.

(** With [src] given and no inline mapping (lines 53-56), the constructor
    returns with the loaded definitions as they are: the checks for an
    empty [api_version] and [kind] of lines 61-69 are not made, whatever
    the two parameters hold, and nothing is called on the cluster. *)
Theorem src_definitions_are_not_checked
    (load_resource_definitions : value -> list dict)
    (module_params : dict) (check : bool)
    (kind_param api_version_param definition_param src_param : value) :
  lookup "kind" module_params = Some kind_param ->
  lookup "api_version" module_params = Some api_version_param ->
  lookup "resource_definition" module_params = Some definition_param ->
  lookup "src" module_params = Some src_param ->
  (forall d, definition_param <> VDict d) ->
  truthy src_param = true ->
  let built := __init__ load_resource_definitions
                 (new_instance module_params check) in
  fst built = Returned tt /\
  resource_definitions (snd built) = Some (load_resource_definitions src_param) /\
  self_kind (snd built) = kind_param /\
  self_api_version (snd built) = api_version_param /\
  log (snd built) = [].
Proof.
  intros Hk Hv Hd Hs Hn Ht built. subst built.
  rewrite (init_without_inline load_resource_definitions module_params check
             kind_param api_version_param definition_param src_param
             Hk Hv Hd Hs Hn).
  cbn [fst snd resource_definitions self_kind self_api_version log].
  rewrite Ht. repeat split.
Qed.

Lemma src_definitions_are_not_checked_witness :
  let load : value -> list dict := fun _ => [[("data", VDict [])]] in
  let built :=
    __init__ load
      (new_instance [("kind", VNone); ("api_version", VNone);
                     ("resource_definition", VNone);
                     ("src", VStr "manifest.yml")] false) in
  fst built = Returned tt /\
  resource_definitions (snd built) = Some [[("data", VDict [])]] /\
  self_kind (snd built) = VNone /\
  self_api_version (snd built) = VNone /\
  log (snd built) = [].
Proof.
  apply (src_definitions_are_not_checked
           (fun _ => [[("data", VDict [])]])
           [("kind", VNone); ("api_version", VNone);
            ("resource_definition", VNone); ("src", VStr "manifest.yml")]
           false VNone VNone VNone (VStr "manifest.yml")
           eq_refl eq_refl eq_refl eq_refl).
  - intros d. discriminate.
  - reflexivity.
Defined.

(** With neither an inline mapping nor [src], the constructor returns
    without setting [resource_definitions], so the run ends in
    [execute_module] with [AttributeError] on that attribute, before any
    call on the cluster and without a report. *)
Theorem no_definition_source_raises
    (load_resource_definitions : value -> list dict)
    (aliases : list string) (registry : list endpoint)
    (module_params : dict) (check : bool)
    (kind_param api_version_param definition_param src_param : value) :
  lookup "kind" module_params = Some kind_param ->
  lookup "api_version" module_params = Some api_version_param ->
  lookup "resource_definition" module_params = Some definition_param ->
  lookup "src" module_params = Some src_param ->
  (forall d, definition_param <> VDict d) ->
  truthy src_param = false ->
  let ran := run load_resource_definitions aliases registry module_params check in
  fst ran = Raised (AttributeError "resource_definitions") /\
  log (snd ran) = [].
Proof.
  intros Hk Hv Hd Hs Hn Ht ran. subst ran. unfold run.
  erewrite bind_returned; cycle 1.
  { apply (init_without_inline load_resource_definitions module_params check
             kind_param api_version_param definition_param src_param
             Hk Hv Hd Hs Hn). }
  rewrite Ht. split; reflexivity.
Qed.

Lemma no_definition_source_raises_witness :
  let ran :=
    run (fun _ => []) [] [Scenario.core_v1 Scenario.holding]
        [("kind", VStr "ConfigMap"); ("api_version", VStr "v1");
         ("resource_definition", VNone); ("src", VNone)] false in
  fst ran = Raised (AttributeError "resource_definitions") /\
  log (snd ran) = [].
Proof.
  apply (no_definition_source_raises
           (fun _ => []) [] [Scenario.core_v1 Scenario.holding]
           [("kind", VStr "ConfigMap"); ("api_version", VStr "v1");
            ("resource_definition", VNone); ("src", VNone)]
           false (VStr "ConfigMap") (VStr "v1") VNone VNone
           eq_refl eq_refl eq_refl eq_refl).
  - intros d. discriminate.
  - reflexivity.
Defined.

(** When the loader finds no definition in [src], the loop of
    [execute_module] has nothing to run: the run returns without
    [exit_json], without [fail_json] and without any call on the
    cluster. *)
Theorem empty_source_reports_nothing
    (load_resource_definitions : value -> list dict)
    (aliases : list string) (registry : list endpoint)
    (module_params : dict) (check : bool)
    (kind_param api_version_param definition_param src_param : value) :
  lookup "kind" module_params = Some kind_param ->
  lookup "api_version" module_params = Some api_version_param ->
  lookup "resource_definition" module_params = Some definition_param ->
  lookup "src" module_params = Some src_param ->
  (forall d, definition_param <> VDict d) ->
  truthy src_param = true ->
  load_resource_definitions src_param = [] ->
  let ran := run load_resource_definitions aliases registry module_params check in
  fst ran = Returned tt /\ log (snd ran) = [].
Proof.
  intros Hk Hv Hd Hs Hn Ht Hl ran. subst ran. unfold run.
  erewrite bind_returned; cycle 1.
  { apply (init_without_inline load_resource_definitions module_params check
             kind_param api_version_param definition_param src_param
             Hk Hv Hd Hs Hn). }
  rewrite Ht, Hl. split; reflexivity.
Qed.

Lemma empty_source_reports_nothing_witness :
  let ran :=
    run (fun _ => []) [] [Scenario.core_v1 Scenario.holding]
        [("kind", VNone); ("api_version", VNone);
         ("resource_definition", VNone); ("src", VStr "empty.yml")] false in
  fst ran = Returned tt /\ log (snd ran) = [].
Proof.
  apply (empty_source_reports_nothing
           (fun _ => []) [] [Scenario.core_v1 Scenario.holding]
           [("kind", VNone); ("api_version", VNone);
            ("resource_definition", VNone); ("src", VStr "empty.yml")]
           false VNone VNone VNone (VStr "empty.yml")
           eq_refl eq_refl eq_refl eq_refl).
  - intros d. discriminate.
  - reflexivity.
  - reflexivity.
Defined.

(** ** The argument specification *)

Lemma lookup_update (d other : dict) (k : string) :
  distinct (keys other) = true ->
  lookup k (update d other) =
  match lookup k other with
  | Some v => Some v
  | None => lookup k d
  end.
Proof.
  unfold update. revert d.
  induction other as [|[k0 v0] other IH]; intros d Hd; simpl in *.
  - reflexivity.
  - apply andb_true_iff in Hd as [Hnew Hd].
    rewrite (IH _ Hd), lookup_setitem.
    destruct (String.eqb k k0) eqn:E; [|reflexivity].
    apply String.eqb_eq in E; subst k0.
    destruct (lookup k other) eqn:Hl; [|reflexivity].
    apply negb_true_iff in Hnew.
    assert (Hin : existsb (String.eqb k) (keys other) = true).
    { apply existsb_exists. exists k. split; [|apply String.eqb_refl].
      apply lookup_in_keys. congruence. }
    congruence.
Qed.

(** The argument specification (lines 73-77) holds every entry of the
    authentication specification, and the entries of the common
    specification at the other keys: where both define a key, the
    authentication entry replaces the common one. *)
Theorem argspec_auth_entries_win (COMMON_ARG_SPEC AUTH_ARG_SPEC : dict)
    (k : string) :
  distinct (keys AUTH_ARG_SPEC) = true ->
  lookup k (argspec COMMON_ARG_SPEC AUTH_ARG_SPEC) =
  match lookup k AUTH_ARG_SPEC with
  | Some v => Some v
  | None => lookup k COMMON_ARG_SPEC
  end.
Proof. intros Hd. unfold argspec, deepcopy. apply lookup_update, Hd. Qed.

Lemma argspec_auth_entries_win_witness :
  let common := [("state", VDict [("default", VStr "present")]);
                 ("host", VDict [("type", VStr "raw")])] in
  let auth := [("host", VDict []); ("api_key", VDict [("no_log", VBool true)])] in
  lookup "host" (argspec common auth) = Some (VDict []) /\
  lookup "state" (argspec common auth) =
    Some (VDict [("default", VStr "present")]).
Proof.
  split.
  - exact (argspec_auth_entries_win
             [("state", VDict [("default", VStr "present")]);
              ("host", VDict [("type", VStr "raw")])]
             [("host", VDict []); ("api_key", VDict [("no_log", VBool true)])]
             "host" eq_refl).
  - exact (argspec_auth_entries_win
             [("state", VDict [("default", VStr "present")]);
              ("host", VDict [("type", VStr "raw")])]
             [("host", VDict []); ("api_key", VDict [("no_log", VBool true)])]
             "state" eq_refl).
Defined.
